(** * Operand: the LLM-driven scraping agent, embedded and verified

    The repository holds two implementations of the same agent,
    [main.py] and [experimental.py]; both define a class [GroqWebScraper].
    The functions of each are embedded below (modules [Main] and
    [Experimental]), on top of a common model of the Python values,
    strings and exceptions they manipulate and of the third-party
    services they call. *)

From Stdlib Require Import ZArith Ascii String List Bool Lia.
From stdpp Require Import base strings gmap list.

Set Warnings "-register-all".

Local Open Scope string_scope.
Local Open Scope Z_scope.

(** ** Python strings

    A Python [str] is modelled as a [string]: a sequence of characters,
    each standing for one code point below 256.  The operations are the
    [str] methods the agent uses. *)

Module Str.

Definition chr (n : nat) : string := String (ascii_of_nat n) EmptyString.

(** The characters that cannot be written inside a literal here. *)
Definition nl : string := chr 10.
Definition dq : string := chr 34.

Definition len (s : string) : Z := Z.of_nat (String.length s).

(** [s.startswith(p)] *)
Fixpoint startswith (p s : string) : bool :=
  match p with
  | EmptyString => true
  | String a p' =>
      match s with
      | EmptyString => false
      | String b s' => if Ascii.eqb a b then startswith p' s' else false
      end
  end.

(** [s.startswith((p1, ..., pn))]: some member of the tuple is a prefix. *)
Definition startswith_any (ps : list string) (s : string) : bool :=
  existsb (fun p => startswith p s) ps.

Fixpoint find_from (sub s : string) (i : Z) : Z :=
  if startswith sub s then i
  else match s with
       | EmptyString => -1
       | String _ s' => find_from sub s' (i + 1)
       end.

(** [s.find(sub)]: index of the first occurrence, or -1. *)
Definition find (sub s : string) : Z := find_from sub s 0.

Fixpoint rfind_from (sub s : string) (i last : Z) : Z :=
  let last' := if startswith sub s then i else last in
  match s with
  | EmptyString => last'
  | String _ s' => rfind_from sub s' (i + 1) last'
  end.

(** [s.rfind(sub)]: index of the last occurrence, or -1. *)
Definition rfind (sub s : string) : Z := rfind_from sub s 0 (-1).

(** How a slice bound is brought into [0 .. len]: a negative bound
    counts from the end. *)
Definition clamp (n i : Z) : Z :=
  if i <? 0 then Z.max 0 (i + n) else Z.min i n.

(** [s[start:stop]] *)
Definition slice (s : string) (start stop : Z) : string :=
  let a := clamp (len s) start in
  let b := clamp (len s) stop in
  substring (Z.to_nat a) (Z.to_nat (b - a)) s.

(** [s[start:]] *)
Definition slice_from (s : string) (start : Z) : string :=
  slice s start (len s).

(** [s[:stop]] *)
Definition slice_to (s : string) (stop : Z) : string :=
  slice s 0 stop.

(** [c.isspace()] on the code points below 256. *)
Definition isspace (c : ascii) : bool :=
  let n := nat_of_ascii c in
  ((9 <=? n) && (n <=? 13) || (28 <=? n) && (n <=? 32)
   || (n =? 133) || (n =? 160))%nat.

Fixpoint lstrip (s : string) : string :=
  match s with
  | EmptyString => EmptyString
  | String c s' => if isspace c then lstrip s' else s
  end.

Fixpoint rstrip (s : string) : string :=
  match s with
  | EmptyString => EmptyString
  | String c s' =>
      match rstrip s' with
      | EmptyString => if isspace c then EmptyString else String c EmptyString
      | t => String c t
      end
  end.

(** [s.strip()] *)
Definition strip (s : string) : string := rstrip (lstrip s).

(** [split_go sep skip cur s]: [cur] holds, reversed, the characters of
    the piece being read; [skip] counts the characters of a separator
    just matched that are still to be passed over. *)
Fixpoint split_go (sep : string) (skip : nat) (cur : list ascii) (s : string)
  : list string :=
  match s with
  | EmptyString => [string_of_list_ascii (rev cur)]
  | String c s' =>
      match skip with
      | S k => split_go sep k cur s'
      | O =>
          if startswith sep s
          then string_of_list_ascii (rev cur)
                 :: split_go sep (String.length sep - 1) [] s'
          else split_go sep O (c :: cur) s'
      end
  end.

(** [s.split(sep)] for a non-empty separator. *)
Definition split (sep s : string) : list string := split_go sep O [] s.

(** [sep.join(parts)] *)
Fixpoint join (sep : string) (parts : list string) : string :=
  match parts with
  | [] => EmptyString
  | [p] => p
  | p :: rest => p +:+ sep +:+ join sep rest
  end.

(** [sub not in s]: no occurrence of [sub] starts anywhere in [s]. *)
Fixpoint free_of (sub s : string) : bool :=
  negb (startswith sub s) &&
  match s with
  | EmptyString => true
  | String _ s' => free_of sub s'
  end.

(** A Python truth test on a [str]: the empty string is falsy. *)
Definition truthy (s : string) : bool :=
  match s with EmptyString => false | _ => true end.

End Str.

(** ** Exceptions and outcomes

    An exception is its class (as far as the [except] clauses of the
    agent tell classes apart) and the text [str(e)] gives. *)

Inductive ExnClass : Type :=
| IndexError
| KeyError
| TypeError
| AttributeError
| JSONDecodeError
| OtherException.   (* any other subclass of [Exception] *)

Definition ExnClass_eqb (a b : ExnClass) : bool :=
  match a, b with
  | IndexError, IndexError | KeyError, KeyError | TypeError, TypeError
  | AttributeError, AttributeError | JSONDecodeError, JSONDecodeError
  | OtherException, OtherException => true
  | _, _ => false
  end.

Record Exn : Type := mkExn { exn_class : ExnClass; exn_str : string }.

Inductive Outcome (A : Type) : Type :=
| Ok (a : A)
| Raise (e : Exn).
Arguments Ok {A} a.
Arguments Raise {A} e.

(** [except (c1, ..., cn)]: does the clause catch [e]? *)
Definition caught_by (cs : list ExnClass) (e : Exn) : bool :=
  existsb (ExnClass_eqb (exn_class e)) cs.

(** ** Python values

    The values [json.loads] produces, which are also the values the
    language-model endpoint returns and the actions the loop dispatches
    on.  A [dict] is a list of bindings with distinct keys. *)

Inductive PyVal : Type :=
| JNull                                   (* None *)
| JBool (b : bool)
| JNum (n : Z)                            (* int *)
| JReal (literal : string)                (* float, kept as written *)
| JStr (s : string)
| JArr (items : list PyVal)
| JObj (fields : list (string * PyVal)).

Fixpoint dict_lookup (k : string) (d : list (string * PyVal)) : option PyVal :=
  match d with
  | [] => None
  | (k', v) :: d' => if String.eqb k k' then Some v else dict_lookup k d'
  end.

(** [d[k] = v] on a list of bindings: the binding is replaced in place,
    or added at the end. *)
Fixpoint dict_set (k : string) (v : PyVal) (d : list (string * PyVal))
  : list (string * PyVal) :=
  match d with
  | [] => [(k, v)]
  | (k', v') :: d' =>
      if String.eqb k k' then (k, v) :: d' else (k', v') :: dict_set k v d'
  end.

(** [v == s] for a [str] literal [s]. *)
Definition py_eq_str (v : PyVal) (s : string) : bool :=
  match v with
  | JStr t => String.eqb t s
  | _ => false
  end.

(** [repr(k)] of a key without quotes or escapes in it. *)
Definition repr_key (k : string) : string := "'" +:+ k +:+ "'".

(** ** The parsed document of BeautifulSoup

    A parsed page is a forest of nodes.  [NavigableString] is a text
    node; [Comment] stands for the string nodes that [get_text] leaves
    out (comments, declarations, doctypes); [Tag] is an element. *)

Inductive Node : Type :=
| NavigableString (s : string)
| Comment (s : string)
| Tag (name : string) (contents : list Node).

Module Soup.

(** What is left of a node once every element named [tag] has been
    decomposed: nothing if the node is such an element, else the node
    with its contents pruned in the same way. *)
Fixpoint prune (tag : string) (n : Node) : list Node :=
  match n with
  | Tag name contents =>
      if String.eqb name tag then []
      else [Tag name (flat_map (prune tag) contents)]
  | _ => [n]
  end.

(** The effect of [for element in soup.find_all(tag): element.decompose()]
    on a forest: every element named [tag] is taken out with its
    subtree (an element found inside another found element is
    destroyed with it). *)
Definition decompose_all (tag : string) (nodes : list Node) : list Node :=
  flat_map (prune tag) nodes.

(** The string nodes [get_text] visits, in document order. *)
Fixpoint all_strings (n : Node) : list string :=
  match n with
  | NavigableString s => [s]
  | Comment _ => []
  | Tag _ contents => flat_map all_strings contents
  end.

(** [soup.get_text(separator=sep, strip=True)]: every visited string
    is stripped, the empty ones are dropped, the rest joined. *)
Definition get_text (sep : string) (nodes : list Node) : string :=
  Str.join sep
    (List.filter Str.truthy
       (map Str.strip (flat_map all_strings nodes))).

(** *** What the cleaner is meant to keep

    The same text, told from the page as parsed: every string node with
    the names of the elements around it, innermost first. *)
Fixpoint located_strings (around : list string) (n : Node)
  : list (list string * string) :=
  match n with
  | NavigableString s => [(around, s)]
  | Comment _ => []
  | Tag name contents => flat_map (located_strings (name :: around)) contents
  end.

(** No element named [tag] is among [around]. *)
Definition clear_of (tag : string) (around : list string) : bool :=
  negb (existsb (String.eqb tag) around).

(** The strings of the page that lie in no element of the kinds [tags]. *)
Definition visible_strings (tags : list string) (nodes : list Node)
  : list string :=
  map snd
    (List.filter (fun p => forallb (fun tag => clear_of tag (fst p)) tags)
       (flat_map (located_strings []) nodes)).

End Soup.

(** ** Computations that may raise and that change a state

    A method body is a function of the state it runs in, giving an
    outcome and the state it leaves.  A raised exception keeps the state
    changes made before it, as in Python. *)

Definition Py (S A : Type) : Type := S -> Outcome A * S.

Definition ret {S A} (a : A) : Py S A := fun s => (Ok a, s).

Definition bind {S A B} (m : Py S A) (k : A -> Py S B) : Py S B :=
  fun s =>
    match m s with
    | (Ok a, s') => k a s'
    | (Raise e, s') => (Raise e, s')
    end.

(** A pure expression that may raise, run inside a method. *)
Definition lift {S A} (o : Outcome A) : Py S A := fun s => (o, s).

(** A call that cannot raise. *)
Definition total {S A} (f : S -> A * S) : Py S A :=
  fun s => let '(a, s') := f s in (Ok a, s').

(** [try: m  except Exception as e: h e], and the bare [except:]. *)
Definition try_except_all {S A} (m : Py S A) (h : Exn -> Py S A) : Py S A :=
  fun s =>
    match m s with
    | (Ok a, s') => (Ok a, s')
    | (Raise e, s') => h e s'
    end.

Declare Scope py_scope.
Delimit Scope py_scope with py.
Notation "x <- m ;; k" := (bind m (fun x => k))
  (at level 100, m at next level, right associativity) : py_scope.

(** The same sequencing for pure expressions that may raise. *)
Definition obind {A B} (o : Outcome A) (k : A -> Outcome B) : Outcome B :=
  match o with
  | Ok a => k a
  | Raise e => Raise e
  end.

(** An entry of the conversation sent to the language model. *)
Record Message : Type := mkMessage { role : string; content : string }.

(** ** What the agent calls and does not define

    [World] is everything outside the process: the network, the browser,
    the random source.  A call that reaches it takes the world and gives
    it back.  The library functions that are pure are plain functions.
    The two prompt texts are constants of the source files whose wording
    no function depends on. *)

Class Externals (World : Type) : Type := {
  (** [json.loads(s)] *)
  json_loads : string -> Outcome PyVal;
  (** [json.dumps(l)] for a list of [str] *)
  json_dumps : list string -> string;
  (** [str(v)] for a value that is not a [str] *)
  py_repr : PyVal -> string;
  (** text of the [TypeError] raised when [v] cannot be subscripted as asked *)
  subscript_error : PyVal -> string;
  (** text of the [AttributeError] raised by [v.name] *)
  attribute_error : PyVal -> string -> string;
  (** text of the [TypeError] raised when [v] is used as a [dict] key *)
  unhashable_error : PyVal -> string;
  (** [BeautifulSoup(html, "html.parser")] *)
  html_parser : string -> list Node;
  (** [[elem.get_text(strip=True)
        for elem in BeautifulSoup(html, "html.parser").select(selector)]] *)
  select_text : PyVal -> PyVal -> Outcome (list string);
  (** [self.session.post(self.base_url,
         json=self._create_groq_payload(messages)).json()] *)
  session_post : list Message -> World -> Outcome PyVal * World;
  (** [r = requests.get(url, timeout=15); r.raise_for_status(); r.text] *)
  requests_get : PyVal -> World -> Outcome string * World;
  (** the [with sync_playwright()] block of [fetch_dynamic_content],
      up to [page.content()] and [browser.close()] *)
  playwright_content : PyVal -> PyVal -> World -> Outcome string * World;
  (** [str(uuid4())] *)
  uuid4 : World -> string * World;
  GROQ_SYSTEM_PROMPT : string;
  FORMATTING_SYSTEM_PROMPT : string
}.

Section Values.

Context {World : Type} {X : Externals World}.

(** [str(v)], as an f-string field formats it. *)
Definition py_str (v : PyVal) : string :=
  match v with
  | JStr s => s
  | _ => py_repr v
  end.

(** [v[k]] for a [str] key. *)
Definition getitem (v : PyVal) (k : string) : Outcome PyVal :=
  match v with
  | JObj d =>
      match dict_lookup k d with
      | Some x => Ok x
      | None => Raise (mkExn KeyError (repr_key k))
      end
  | _ => Raise (mkExn TypeError (subscript_error v))
  end.

(** [v[0]] *)
Definition getitem0 (v : PyVal) : Outcome PyVal :=
  match v with
  | JArr (x :: _) => Ok x
  | JArr [] => Raise (mkExn IndexError "list index out of range")
  | JStr (String c _) => Ok (JStr (String c EmptyString))
  | JStr EmptyString => Raise (mkExn IndexError "string index out of range")
  | JObj _ => Raise (mkExn KeyError "0")
  | _ => Raise (mkExn TypeError (subscript_error v))
  end.

(** [v.get(k)] *)
Definition dict_get (v : PyVal) (k : string) : Outcome PyVal :=
  match v with
  | JObj d => Ok (default JNull (dict_lookup k d))
  | _ => Raise (mkExn AttributeError (attribute_error v "get"))
  end.

(** [v.get(k, fallback)] *)
Definition dict_get_default (v : PyVal) (k : string) (fallback : PyVal)
  : Outcome PyVal :=
  match v with
  | JObj d => Ok (default fallback (dict_lookup k d))
  | _ => Raise (mkExn AttributeError (attribute_error v "get"))
  end.

(** [l[i]] on a list of strings. *)
Definition list_getitem (l : list string) (i : nat) : Outcome string :=
  match nth_error l i with
  | Some x => Ok x
  | None => Raise (mkExn IndexError "list index out of range")
  end.

(** [response["choices"][0]["message"]["content"]] *)
Definition message_content (response : PyVal) : Outcome PyVal :=
  obind (getitem response "choices") (fun choices =>
  obind (getitem0 choices) (fun choice =>
  obind (getitem choice "message") (fun message =>
  getitem message "content"))).

End Values.

Local Open Scope py_scope.

(** ** The adapters

    [_clean_html], [fetch_website], [fetch_dynamic_content] and
    [extract_data] have the same text in both files. *)

Section Adapters.

Context {World : Type} {X : Externals World}.

Definition max_html_length : Z := 6000.

Definition unwanted_elements : list string :=
  ["script"; "style"; "svg"; "nav"; "footer"; "header"; "form"].

Definition _clean_html (html : string) : string :=
  let soup := html_parser html in
  let soup :=
    fold_left (fun soup tag => Soup.decompose_all tag soup)
      unwanted_elements soup in
  let text := Soup.get_text Str.nl soup in
  Str.slice_to text max_html_length.

Definition fetch_website (url : PyVal) : Py World string :=
  try_except_all
    (text <- requests_get url;;
     ret (_clean_html text))
    (fun e => ret ("FETCH_ERROR: " +:+ exn_str e)).

Definition fetch_dynamic_content (url wait_for : PyVal) : Py World string :=
  try_except_all
    (content <- playwright_content url wait_for;;
     ret (_clean_html content))
    (fun e => ret ("RENDER_ERROR: " +:+ exn_str e)).

Definition extract_data (html selector : PyVal) : list string :=
  match select_text html selector with
  | Ok texts => texts
  | Raise e => ["EXTRACTION_ERROR: " +:+ exn_str e]
  end.

Definition system_message (text : string) : Message := mkMessage "system" text.
Definition user_message (text : string) : Message := mkMessage "user" text.
Definition assistant_message (text : string) : Message :=
  mkMessage "assistant" text.

End Adapters.

(** What one pass through the body of the [for] loop does: it falls
    through to the next pass with a longer conversation, or it leaves
    the method with [return]. *)
Inductive Step : Type :=
| Continue (conversation_history : list Message)
| Return (value : PyVal).

Definition max_steps : nat := 5.

Definition MAX_STEPS_REACHED : string :=
  "MAX_STEPS_REACHED: Processing limit exceeded".

Definition response_action (content : string) : PyVal :=
  JObj [("action", JStr "response"); ("content", JStr content)].

(** The values of the [action] field that the chain of comparisons in
    the loop knows. *)
Definition recognized (tag : PyVal) : bool :=
  py_eq_str tag "response" || py_eq_str tag "fetch"
  || py_eq_str tag "render" || py_eq_str tag "extract".

(** The [Invalid] action of the specification, on the values the
    decoders return: no [action] field, or one that is not recognized. *)
Definition Invalid (action : PyVal) : Prop :=
  match action with
  | JObj fields =>
      match dict_lookup "action" fields with
      | Some tag => recognized tag = false
      | None => True
      end
  | _ => True
  end.

Section Terminal.

Context {World : Type} {X : Externals World}.

(** The values with which a pass leaves the loop: the content of a
    [response] action, the invalid-action error, an agent error. *)
Definition terminal_value (v : PyVal) : Prop :=
  v = JStr "ERROR: Invalid action requested" \/
  (exists e, v = JStr ("AGENT_ERROR: " +:+ exn_str e)) \/
  (exists action tag,
     getitem action "action" = Ok tag /\
     py_eq_str tag "response" = true /\
     getitem action "content" = Ok v).

End Terminal.

(** ** main.py *)

Module Main.
Section Main.

Context {World : Type} {X : Externals World}.

(** The body of the [try]: the text after the first [```json], up to
    the next fence, stripped and read as JSON. *)
Definition fenced_attempt (response : string) : Outcome PyVal :=
  obind (list_getitem (Str.split "```json" response) 1) (fun tail =>
  obind (list_getitem (Str.split "```" tail) 0) (fun block =>
  json_loads (Str.strip block))).

Definition _parse_llm_response (response : PyVal) : Outcome PyVal :=
  match response with
  | JStr response =>
      match fenced_attempt response with
      | Ok action => Ok action
      | Raise e =>
          if caught_by [IndexError; JSONDecodeError] e
          then Ok (response_action response)
          else Raise e
      end
  | _ => Raise (mkExn AttributeError (attribute_error response "split"))
  end.

(** The [if]/[elif]/[else] chain on [action["action"]]. *)
Definition dispatch (action : PyVal) (conversation_history : list Message)
  : Py World Step :=
  tag <- lift (getitem action "action");;
  if py_eq_str tag "response" then
    content <- lift (getitem action "content");;
    ret (Return content)
  else if py_eq_str tag "fetch" then
    url <- lift (getitem action "url");;
    result <- fetch_website url;;
    ret (Continue (conversation_history ++
      [assistant_message
         ("Fetched content from " +:+ py_str url +:+ ":" +:+ Str.nl
          +:+ result)]))
  else if py_eq_str tag "render" then
    url <- lift (getitem action "url");;
    wait_for <- lift (dict_get action "wait_for");;
    result <- fetch_dynamic_content url wait_for;;
    ret (Continue (conversation_history ++
      [assistant_message
         ("Rendered content from " +:+ py_str url +:+ ":" +:+ Str.nl
          +:+ result)]))
  else if py_eq_str tag "extract" then
    html <- lift (getitem action "html");;
    selector <- lift (getitem action "selector");;
    let result := extract_data html selector in
    ret (Continue (conversation_history ++
      [assistant_message
         ("Extraction results using '" +:+ py_str selector +:+ "':"
          +:+ Str.nl +:+ json_dumps result)]))
  else
    ret (Return (JStr "ERROR: Invalid action requested")).

(** The endpoint answers the conversation with the text [reply]. *)
Definition replies_with (conversation_history : list Message) (w : World)
  (reply : string) (w' : World) : Prop :=
  exists response,
    session_post conversation_history w = (Ok response, w') /\
    message_content response = Ok (JStr reply).

(** The body of the [for] loop, with its [try]/[except Exception]. *)
Definition step (conversation_history : list Message) : Py World Step :=
  try_except_all
    (response <- session_post conversation_history;;
     llm_message <- lift (message_content response);;
     action <- lift (_parse_llm_response llm_message);;
     dispatch action conversation_history)
    (fun e => ret (Return (JStr ("AGENT_ERROR: " +:+ exn_str e)))).

(** [for _ in range(n)] followed by the final [return]. *)
Fixpoint loop (n : nat) (conversation_history : list Message)
  : Py World PyVal :=
  match n with
  | O => ret (JStr MAX_STEPS_REACHED)
  | S n' =>
      r <- step conversation_history;;
      match r with
      | Return value => ret value
      | Continue conversation_history' => loop n' conversation_history'
      end
  end.

Definition execute_agent_loop (user_query : string) : Py World PyVal :=
  loop max_steps
    [system_message GROQ_SYSTEM_PROMPT; user_message user_query].

(** How many times the loop body runs. *)
Fixpoint passes (n : nat) (conversation_history : list Message) (w : World)
  : nat :=
  match n with
  | O => O
  | S n' =>
      match step conversation_history w with
      | (Ok (Continue conversation_history'), w') =>
          S (passes n' conversation_history' w')
      | _ => 1%nat
      end
  end.

(** None of the first [n] passes leaves the loop. *)
Fixpoint falls_through (n : nat) (conversation_history : list Message)
  (w : World) : Prop :=
  match n with
  | O => True
  | S n' =>
      match step conversation_history w with
      | (Ok (Continue conversation_history'), w') =>
          falls_through n' conversation_history' w'
      | _ => False
      end
  end.

End Main.
End Main.

(** ** experimental.py *)

Module Experimental.
Section Experimental.

Context {World : Type} {X : Externals World}.

(** The scraper object and what is outside it: [self.content_store]
    lives as long as the object, across calls. *)
Record Agent : Type := mkAgent {
  content_store : gmap string string;
  world : World
}.

(** A call that reaches the world and leaves the object alone. *)
Definition outside {A} (m : Py World A) : Py Agent A :=
  fun s =>
    let '(o, w') := m (world s) in
    (o, mkAgent (content_store s) w').

Definition lines (ls : list string) : string := Str.join Str.nl ls.

Definition format_prompt (raw_data : PyVal) (original_query : string)
  : string :=
  lines
    [ "";
      "        Original user request: " +:+ original_query;
      "        ";
      "        Raw scraped data:";
      "        " +:+ py_str raw_data;
      "        ";
      "        Please transform this into a clean, human-readable format with:";
      "        - Clear section headings";
      "        - Bullet points or numbered lists";
      "        - Proper formatting for numbers/dates";
      "        - Source attribution";
      "        - Emoji decorations";
      "        - Concise summary";
      "        ";
      "        Avoid technical jargon and maintain accuracy.";
      "        " ].

Definition _format_output (raw_data : PyVal) (original_query : string)
  : Py Agent PyVal :=
  let messages :=
    [system_message FORMATTING_SYSTEM_PROMPT;
     user_message (format_prompt raw_data original_query)] in
  response <- outside (session_post messages);;
  lift (message_content response).

Definition _store_content (content : string) : Py Agent string :=
  content_id <- outside (total uuid4);;
  _ <- (fun s =>
          (Ok tt,
           mkAgent (<[content_id := content]> (content_store s)) (world s)));;
  ret content_id.

Definition json_tag : string := "json" +:+ Str.nl.

(** The body of the outer [try]: the text between the first two
    fences, without a leading [json] line, read as JSON. *)
Definition fenced_attempt (response : string) : Outcome PyVal :=
  obind (list_getitem (Str.split "```" response) 1) (fun json_str =>
  let json_str :=
    if Str.startswith json_tag json_str
    then Str.slice_from json_str 5
    else json_str in
  json_loads json_str).

(** [response[start:end]] of the inner [try]: from the first opening
    brace to the last closing one. *)
Definition braced_span (response : string) : string :=
  let start := Str.find "{" response in
  let end_ := Str.rfind "}" response + 1 in
  Str.slice response start end_.

Definition _parse_llm_response (response : PyVal) : Outcome PyVal :=
  match response with
  | JStr response =>
      match fenced_attempt response with
      | Ok action => Ok action
      | Raise e =>
          if caught_by [IndexError; JSONDecodeError] e
          then
            match json_loads (braced_span response) with
            | Ok action => Ok action
            | Raise _ =>
                Ok (response_action ("PARSE_ERROR: " +:+ exn_str e))
            end
          else Raise e
      end
  | _ => Raise (mkExn AttributeError (attribute_error response "split"))
  end.

(** [self.content_store.get(key)] *)
Definition store_get (key : PyVal) : Py Agent (option string) :=
  fun s =>
    match key with
    | JStr k => (Ok (content_store s !! k), s)
    | JArr _ | JObj _ => (Raise (mkExn TypeError (unhashable_error key)), s)
    | _ => (Ok None, s)   (* hashable, and every key of the store is a [str] *)
    end.

(** [not content] for what [store_get] gives. *)
Definition falsy (content : option string) : bool :=
  match content with
  | None => true
  | Some s => negb (Str.truthy s)
  end.

(** The [if]/[elif]/[else] chain on [action["action"]]. *)
Definition dispatch (action : PyVal) (conversation_history : list Message)
  : Py Agent Step :=
  tag <- lift (getitem action "action");;
  if py_eq_str tag "response" then
    content <- lift (getitem action "content");;
    ret (Return content)
  else if py_eq_str tag "fetch" then
    url <- lift (getitem action "url");;
    result <- outside (fetch_website url);;
    content_id <- _store_content result;;
    ret (Continue (conversation_history ++
      [assistant_message
         ("FETCHED:" +:+ content_id +:+ "|" +:+ py_str url)]))
  else if py_eq_str tag "render" then
    url <- lift (getitem action "url");;
    wait_for <- lift (dict_get action "wait_for");;
    result <- outside (fetch_dynamic_content url wait_for);;
    content_id <- _store_content result;;
    ret (Continue (conversation_history ++
      [assistant_message
         ("RENDERED:" +:+ content_id +:+ "|" +:+ py_str url)]))
  else if py_eq_str tag "extract" then
    key <- lift (getitem action "content_id");;
    content <- store_get key;;
    result <-
      (if falsy content then ret ["CONTENT_NOT_FOUND"]
       else
         selector <- lift (getitem action "selector");;
         ret (extract_data (JStr (default "" content)) selector));;
    ret (Continue (conversation_history ++
      [assistant_message ("EXTRACTED:" +:+ json_dumps result)]))
  else
    ret (Return (JStr "ERROR: Invalid action requested")).

(** The endpoint answers the conversation with the text [reply]; the
    object is as it was. *)
Definition replies_with (conversation_history : list Message) (s : Agent)
  (reply : string) (s' : Agent) : Prop :=
  exists response,
    session_post conversation_history (world s) = (Ok response, world s') /\
    message_content response = Ok (JStr reply) /\
    content_store s' = content_store s.

(** The body of the [for] loop, with its [try]/[except Exception]. *)
Definition step (conversation_history : list Message) : Py Agent Step :=
  try_except_all
    (response <- outside (session_post conversation_history);;
     llm_message <- lift (message_content response);;
     action <- lift (_parse_llm_response llm_message);;
     dispatch action conversation_history)
    (fun e => ret (Return (JStr ("AGENT_ERROR: " +:+ exn_str e)))).

(** [for _ in range(n)] followed by the final [return]. *)
Fixpoint loop (n : nat) (conversation_history : list Message)
  : Py Agent PyVal :=
  match n with
  | O => ret (JStr MAX_STEPS_REACHED)
  | S n' =>
      r <- step conversation_history;;
      match r with
      | Return value => ret value
      | Continue conversation_history' => loop n' conversation_history'
      end
  end.

Definition _run_scraping_operations (user_query : string) : Py Agent PyVal :=
  loop max_steps
    [system_message GROQ_SYSTEM_PROMPT; user_message user_query].

Definition error_prefixes : list string :=
  ["FETCH_ERROR"; "RENDER_ERROR"; "EXTRACTION_ERROR"; "AGENT_ERROR";
   "MAX_STEPS_REACHED"; "PARSE_ERROR"].

Definition _is_error (result : PyVal) : Outcome bool :=
  match result with
  | JStr s => Ok (Str.startswith_any error_prefixes s)
  | _ => Raise (mkExn AttributeError (attribute_error result "startswith"))
  end.

Definition execute_agent_loop (user_query : string) : Py Agent PyVal :=
  raw_result <- _run_scraping_operations user_query;;
  is_error <- lift (_is_error raw_result);;
  if (is_error : bool) then ret (JObj [("error", raw_result)])
  else
    formatted <- _format_output raw_result user_query;;
    ret (JObj [("raw_data", raw_result); ("formatted", formatted)]).

(** How many times the loop body runs. *)
Fixpoint passes (n : nat) (conversation_history : list Message) (s : Agent)
  : nat :=
  match n with
  | O => O
  | S n' =>
      match step conversation_history s with
      | (Ok (Continue conversation_history'), s') =>
          S (passes n' conversation_history' s')
      | _ => 1%nat
      end
  end.

(** None of the first [n] passes leaves the loop. *)
Fixpoint falls_through (n : nat) (conversation_history : list Message)
  (s : Agent) : Prop :=
  match n with
  | O => True
  | S n' =>
      match step conversation_history s with
      | (Ok (Continue conversation_history'), s') =>
          falls_through n' conversation_history' s'
      | _ => False
      end
  end.

(** The [__main__] block of the file, after the call of
    [execute_agent_loop]: the value it prints under the heading
    "Raw Data" and the one it prints under "Formatted Results". *)
Definition script_prints (result : PyVal) : Outcome (PyVal * PyVal) :=
  obind (dict_get_default result "raw_data" (JStr "No data")) (fun raw =>
  obind (dict_get_default result "formatted" (JStr "No formatted output"))
    (fun formatted => Ok (raw, formatted))).

End Experimental.
End Experimental.

(** ** A scripted world, to run the agent on concrete inputs

    The examples below need every external call to compute.  [JsonRef]
    reads the part of JSON the protocol exchanges (objects, arrays,
    strings with the one-letter escapes, integers, [true], [false],
    [null]); it does not reproduce the wording of the decode errors.  The
    theorems are stated for every instance of [Externals], not for this
    one. *)

Module JsonRef.

Definition quote : ascii := ascii_of_nat 34.

Definition is_ws (c : ascii) : bool :=
  let n := nat_of_ascii c in
  ((n =? 32) || (n =? 9) || (n =? 10) || (n =? 13))%nat.

Fixpoint skip_ws (s : string) : string :=
  match s with
  | EmptyString => EmptyString
  | String c s' => if is_ws c then skip_ws s' else s
  end.

Definition unescape (e : ascii) : option ascii :=
  if Ascii.eqb e quote then Some quote
  else if Ascii.eqb e "\" then Some "\"%char
  else if Ascii.eqb e "/" then Some "/"%char
  else if Ascii.eqb e "b" then Some (ascii_of_nat 8)
  else if Ascii.eqb e "f" then Some (ascii_of_nat 12)
  else if Ascii.eqb e "n" then Some (ascii_of_nat 10)
  else if Ascii.eqb e "r" then Some (ascii_of_nat 13)
  else if Ascii.eqb e "t" then Some (ascii_of_nat 9)
  else None.

(** The rest of a string literal, after its opening quote. *)
Fixpoint read_string (s : string) (acc : list ascii)
  : option (string * string) :=
  match s with
  | EmptyString => None
  | String c s' =>
      if Ascii.eqb c quote then Some (string_of_list_ascii (rev acc), s')
      else if Ascii.eqb c "\" then
        match s' with
        | String e s'' =>
            match unescape e with
            | Some c' => read_string s'' (c' :: acc)
            | None => None
            end
        | EmptyString => None
        end
      else if (nat_of_ascii c <? 32)%nat then None
      else read_string s' (c :: acc)
  end.

Definition digit (c : ascii) : option Z :=
  let n := nat_of_ascii c in
  if ((48 <=? n) && (n <=? 57))%nat then Some (Z.of_nat n - 48) else None.

Fixpoint read_digits (s : string) (acc : Z) : Z * string :=
  match s with
  | EmptyString => (acc, s)
  | String c s' =>
      match digit c with
      | Some d => read_digits s' (10 * acc + d)
      | None => (acc, s)
      end
  end.

(** An integer without sign; a fraction or an exponent is refused. *)
Definition read_nat (s : string) : option (Z * string) :=
  match s with
  | EmptyString => None
  | String c s' =>
      match digit c with
      | None => None
      | Some d =>
          let '(n, rest) := if d =? 0 then (0, s') else read_digits s' d in
          match rest with
          | String c' _ =>
              if Ascii.eqb c' "." || Ascii.eqb c' "e" || Ascii.eqb c' "E"
              then None else Some (n, rest)
          | EmptyString => Some (n, rest)
          end
      end
  end.

Definition read_atom (s : string) : option (PyVal * string) :=
  if Str.startswith "true" s then Some (JBool true, Str.slice_from s 4)
  else if Str.startswith "false" s then Some (JBool false, Str.slice_from s 5)
  else if Str.startswith "null" s then Some (JNull, Str.slice_from s 4)
  else
    match s with
    | String "-" s' =>
        match read_nat s' with
        | Some (n, rest) => Some (JNum (- n), rest)
        | None => None
        end
    | _ =>
        match read_nat s with
        | Some (n, rest) => Some (JNum n, rest)
        | None => None
        end
    end.

Fixpoint read_value (fuel : nat) (s : string) : option (PyVal * string) :=
  match fuel with
  | O => None
  | S fuel' =>
      match skip_ws s with
      | EmptyString => None
      | String c s' =>
          if Ascii.eqb c "{" then
            match skip_ws s' with
            | String "}" rest => Some (JObj [], rest)
            | _ => read_members fuel' s' []
            end
          else if Ascii.eqb c "[" then
            match skip_ws s' with
            | String "]" rest => Some (JArr [], rest)
            | _ => read_elements fuel' s' []
            end
          else if Ascii.eqb c quote then
            match read_string s' [] with
            | Some (t, rest) => Some (JStr t, rest)
            | None => None
            end
          else read_atom (String c s')
      end
  end
with read_elements (fuel : nat) (s : string) (acc : list PyVal)
  : option (PyVal * string) :=
  match fuel with
  | O => None
  | S fuel' =>
      match read_value fuel' s with
      | None => None
      | Some (v, rest) =>
          match skip_ws rest with
          | String "," rest' => read_elements fuel' rest' (v :: acc)
          | String "]" rest' => Some (JArr (rev (v :: acc)), rest')
          | _ => None
          end
      end
  end
with read_members (fuel : nat) (s : string) (acc : list (string * PyVal))
  : option (PyVal * string) :=
  match fuel with
  | O => None
  | S fuel' =>
      match skip_ws s with
      | String c s1 =>
          if Ascii.eqb c quote then
            match read_string s1 [] with
            | None => None
            | Some (k, s2) =>
                match skip_ws s2 with
                | String ":" s3 =>
                    match read_value fuel' s3 with
                    | None => None
                    | Some (v, s4) =>
                        match skip_ws s4 with
                        | String "," s5 =>
                            read_members fuel' s5 (dict_set k v acc)
                        | String "}" s5 => Some (JObj (dict_set k v acc), s5)
                        | _ => None
                        end
                    end
                | _ => None
                end
            end
          else None
      | EmptyString => None
      end
  end.

Definition decode_error : Exn := mkExn JSONDecodeError "invalid JSON".

Definition loads (s : string) : Outcome PyVal :=
  match read_value (2 * String.length s + 2) s with
  | Some (v, rest) =>
      match skip_ws rest with
      | EmptyString => Ok v
      | _ => Raise decode_error
      end
  | None => Raise decode_error
  end.

(** [json.dumps] of a list of strings that need no escape. *)
Definition dumps (l : list string) : string :=
  "[" +:+ Str.join ", " (map (fun s => Str.dq +:+ s +:+ Str.dq) l) +:+ "]".

End JsonRef.

(** [{"k1": "v1", ...}] as the model would write it. *)
Definition json_object_text (fields : list (string * string)) : string :=
  "{" +:+
  Str.join ", "
    (map (fun '(k, v) =>
            Str.dq +:+ k +:+ Str.dq +:+ ": " +:+ Str.dq +:+ v +:+ Str.dq)
       fields)
  +:+ "}".

(** A reply that is one fenced block tagged [json]. *)
Definition fenced_json (body : string) : string :=
  "```json" +:+ Str.nl +:+ body +:+ Str.nl +:+ "```".

(** A reply that is one fenced block without a tag. *)
Definition fenced_plain (body : string) : string :=
  "```" +:+ Str.nl +:+ body +:+ Str.nl +:+ "```".

Module Scripted.

Record World : Type := mkWorld {
  replies : list (Outcome PyVal);  (* what the endpoint answers, call after call *)
  pages : list (string * string);  (* the URLs that answer, with their text *)
  issued : nat                     (* how many keys were issued *)
}.

(** The body of a well-formed answer of the endpoint. *)
Definition chat (content : string) : Outcome PyVal :=
  Ok (JObj [("choices",
             JArr [JObj [("message",
                          JObj [("role", JStr "assistant");
                                ("content", JStr content)])]])]).

Definition post (_ : list Message) (w : World) : Outcome PyVal * World :=
  match replies w with
  | [] => (Raise (mkExn OtherException "connection refused"), w)
  | r :: rest => (r, mkWorld rest (pages w) (issued w))
  end.

Fixpoint page_of (url : string) (ps : list (string * string))
  : option string :=
  match ps with
  | [] => None
  | (u, text) :: ps' => if String.eqb url u then Some text else page_of url ps'
  end.

Definition get (url : PyVal) (w : World) : Outcome string * World :=
  match url with
  | JStr u =>
      match page_of u (pages w) with
      | Some text => (Ok text, w)
      | None => (Raise (mkExn OtherException "timed out"), w)
      end
  | _ => (Raise (mkExn OtherException "invalid URL"), w)
  end.

Definition fresh_key (w : World) : string * World :=
  ("key-" +:+ Str.chr (48 + issued w),
   mkWorld (replies w) (pages w) (S (issued w))).

(** The pages of a script are plain text: one string node, which any
    selector returns whole. *)
Definition parse (html : string) : list Node := [NavigableString html].

Definition select (html selector : PyVal) : Outcome (list string) :=
  match html with
  | JStr s => Ok [Str.strip s]
  | _ => Raise (mkExn TypeError "not a string")
  end.

#[global] Instance externals : Externals World := {|
  json_loads := JsonRef.loads;
  json_dumps := JsonRef.dumps;
  py_repr := fun _ => "<value>";
  subscript_error := fun _ => "not subscriptable";
  attribute_error := fun _ name => "no attribute '" +:+ name +:+ "'";
  unhashable_error := fun _ => "unhashable type";
  html_parser := parse;
  select_text := select;
  session_post := post;
  requests_get := get;
  playwright_content := fun url _ => get url;
  uuid4 := fresh_key;
  GROQ_SYSTEM_PROMPT := "You are a senior web scraping agent.";
  FORMATTING_SYSTEM_PROMPT := "You are an expert data formatter."
|}.

Definition start (rs : list (Outcome PyVal)) (ps : list (string * string))
  : World := mkWorld rs ps 0.

Definition agent (rs : list (Outcome PyVal)) (ps : list (string * string))
  : Experimental.Agent := Experimental.mkAgent ∅ (start rs ps).

(** Replies of the model, one fenced action each. *)
Definition says (fields : list (string * string)) : Outcome PyVal :=
  chat (fenced_json (json_object_text fields)).

Definition fetch_reply (url : string) : Outcome PyVal :=
  says [("action", "fetch"); ("url", url)].

Definition extract_reply (content_id selector : string) : Outcome PyVal :=
  says [("action", "extract"); ("content_id", content_id);
        ("selector", selector)].

Definition response_reply (content : string) : Outcome PyVal :=
  says [("action", "response"); ("content", content)].

(** A model that asks for the same page again and again. *)
Definition stubborn : list (Outcome PyVal) :=
  repeat (fetch_reply "http://example.test") 7.

(** The same world with a selector engine that refuses a selector that
    is not a string. *)
Definition select_strict (html selector : PyVal) : Outcome (list string) :=
  match selector with
  | JStr _ => select html selector
  | _ => Raise (mkExn OtherException "invalid selector")
  end.

Definition strict : Externals World := {|
  json_loads := JsonRef.loads;
  json_dumps := JsonRef.dumps;
  py_repr := fun _ => "<value>";
  subscript_error := fun _ => "not subscriptable";
  attribute_error := fun _ name => "no attribute '" +:+ name +:+ "'";
  unhashable_error := fun _ => "unhashable type";
  html_parser := parse;
  select_text := select_strict;
  session_post := post;
  requests_get := get;
  playwright_content := fun url _ => get url;
  uuid4 := fresh_key;
  GROQ_SYSTEM_PROMPT := "You are a senior web scraping agent.";
  FORMATTING_SYSTEM_PROMPT := "You are an expert data formatter."
|}.

End Scripted.

(** * Properties *)

(** ** The model on concrete inputs *)

Example split_fence :
  Str.split "```" "a```json{}```b" = ["a"; "json{}"; "b"].
Proof. reflexivity. Qed.

Example split_trailing : Str.split "```" "```x```" = [""; "x"; ""].
Proof. reflexivity. Qed.

Example find_absent : Str.find "{" "abc" = -1 /\ Str.rfind "}" "abc" + 1 = 0.
Proof. split; reflexivity. Qed.

Example slice_negative_start : Str.slice "ab}" (-1) 3 = "}".
Proof. reflexivity. Qed.

Example strip_both : Str.strip (Str.nl +:+ " {x} " +:+ Str.nl) = "{x}".
Proof. reflexivity. Qed.

Example loads_fetch :
  JsonRef.loads
    (json_object_text [("action", "fetch"); ("url", "http://example.test")])
  = Ok (JObj [("action", JStr "fetch"); ("url", JStr "http://example.test")]).
Proof. vm_compute. reflexivity. Qed.

Example loads_nested :
  JsonRef.loads "  [1, -20, true, null, {}, []] " =
  Ok (JArr [JNum 1; JNum (-20); JBool true; JNull; JObj []; JArr []]).
Proof. vm_compute. reflexivity. Qed.

Example loads_garbage :
  JsonRef.loads "" = Raise JsonRef.decode_error /\
  JsonRef.loads "{" = Raise JsonRef.decode_error /\
  JsonRef.loads "hello" = Raise JsonRef.decode_error /\
  JsonRef.loads "{} x" = Raise JsonRef.decode_error.
Proof. vm_compute. repeat split. Qed.

(** Scenario A of the specification: the first reply is a final answer. *)
Example scenario_A_main :
  fst (Main.execute_agent_loop "capital of France?"
         (Scripted.start
            [Scripted.chat
               (fenced_json
                  (json_object_text [("action", "response"); ("content", "Paris")]))]
            []))
  = Ok (JStr "Paris").
Proof. vm_compute. reflexivity. Qed.

(** Scenario B: fetch, extract through the reference, answer. *)
Example scenario_B_experimental :
  fst (Experimental._run_scraping_operations "title?"
         (Scripted.agent
            [Scripted.chat
               (fenced_json
                  (json_object_text
                     [("action", "fetch"); ("url", "http://example.test")]));
             Scripted.chat
               (fenced_json
                  (json_object_text
                     [("action", "extract"); ("content_id", "key-0");
                      ("selector", "h1")]));
             Scripted.chat
               (fenced_json
                  (json_object_text
                     [("action", "response"); ("content", "Example Domain")]))]
            [("http://example.test", " Example Domain ")]))
  = Ok (JStr "Example Domain").
Proof. vm_compute. reflexivity. Qed.

(** The cleaner on a small page: the script, the style sheet, the
    navigation bar and the comment leave no text. *)
Example clean_small_page :
  let page :=
    [Tag "html"
       [Tag "head"
          [Tag "style" [NavigableString "p { color: red }"];
           Tag "script" [NavigableString "alert(1)"]];
        Tag "body"
          [Tag "nav" [Tag "a" [NavigableString "Home"]];
           Comment "banner";
           Tag "h1" [NavigableString "  Example Domain "];
           Tag "p" [NavigableString "   "];
           Tag "p" [NavigableString "More information"]]]] in
  Soup.get_text Str.nl
    (fold_left (fun soup tag => Soup.decompose_all tag soup)
       unwanted_elements page)
  = "Example Domain" +:+ Str.nl +:+ "More information".
Proof. vm_compute. reflexivity. Qed.

Example truncation : Str.slice_to "abcdef" 4 = "abcd" /\ Str.slice_to "ab" 4 = "ab".
Proof. split; reflexivity. Qed.

(** [_is_error] looks at the beginning of the string only. *)
Example is_error_prefixes :
  Experimental._is_error (X := Scripted.externals)
    (JStr "MAX_STEPS_REACHED: Processing limit exceeded") = Ok true /\
  Experimental._is_error (X := Scripted.externals)
    (JStr "ERROR: Invalid action requested") = Ok false /\
  Experimental._is_error (X := Scripted.externals)
    (JStr "No FETCH_ERROR here") = Ok false.
Proof. repeat split. Qed.

(** ** Strings *)

Lemma substring_length_le (s : string) (n m : nat) :
  (String.length (substring n m s) <= m)%nat.
Proof.
  revert n m. induction s as [|c s IH]; intros n m.
  - destruct n, m; simpl; lia.
  - destruct n as [|n]; simpl.
    + destruct m as [|m]; simpl; [lia|]. specialize (IH O m). lia.
    + apply IH.
Qed.

Lemma substring_0_prefix (s : string) (m : nat) :
  exists rest, s = substring 0 m s +:+ rest.
Proof.
  revert m. induction s as [|c s IH]; intros m.
  - exists EmptyString. destruct m; reflexivity.
  - destruct m as [|m]; simpl.
    + eexists. reflexivity.
    + destruct (IH m) as [rest Hrest]. exists rest.
      change (String c s = String c (substring 0 m s +:+ rest)).
      f_equal. exact Hrest.
Qed.

Lemma clamp_zero (s : string) : Str.clamp (Str.len s) 0 = 0.
Proof. unfold Str.clamp, Str.len. rewrite Z.ltb_irrefl. lia. Qed.

Lemma clamp_le (len n : Z) : 0 <= len -> 0 <= n -> Str.clamp len n <= n.
Proof.
  intros Hlen Hn. unfold Str.clamp.
  destruct (n <? 0) eqn:E; [apply Z.ltb_lt in E|]; lia.
Qed.

Lemma slice_to_bound (s : string) (n : Z) :
  0 <= n -> Str.len (Str.slice_to s n) <= n.
Proof.
  intros Hn. unfold Str.slice_to, Str.slice. rewrite clamp_zero.
  pose proof (clamp_le (Str.len s) n) as Hc.
  pose proof (substring_length_le s (Z.to_nat 0)
                (Z.to_nat (Str.clamp (Str.len s) n - 0))) as Hs.
  unfold Str.len in *. lia.
Qed.

Lemma slice_to_prefix (s : string) (n : Z) :
  exists rest, s = Str.slice_to s n +:+ rest.
Proof.
  unfold Str.slice_to, Str.slice. rewrite clamp_zero.
  apply substring_0_prefix.
Qed.

Lemma startswith_app (p s : string) : Str.startswith p (p +:+ s) = true.
Proof.
  induction p as [|c p IH]; simpl; [reflexivity|].
  rewrite Ascii.eqb_refl. exact IH.
Qed.

(** ** The content cleaner *)

Lemma Node_forest_ind (P : Node -> Prop) :
  (forall s, P (NavigableString s)) ->
  (forall s, P (Comment s)) ->
  (forall name contents, Forall P contents -> P (Tag name contents)) ->
  forall n, P n.
Proof.
  intros P_string P_comment P_tag.
  fix IH 1. intros [s|s|name contents].
  - apply P_string.
  - apply P_comment.
  - apply P_tag. induction contents as [|n' ns' IHns]; constructor.
    + apply IH.
    + exact IHns.
Qed.

Lemma flat_map_Forall_ext {A B} (f g : A -> list B) (l : list A) :
  Forall (fun x => f x = g x) l -> flat_map f l = flat_map g l.
Proof.
  induction 1 as [|x l Hx _ IH]; simpl; [reflexivity|]. now rewrite Hx, IH.
Qed.

Lemma map_flat_map {A B C} (f : B -> C) (g : A -> list B) (l : list A) :
  map f (flat_map g l) = flat_map (fun x => map f (g x)) l.
Proof.
  induction l as [|x l IH]; simpl; [reflexivity|].
  now rewrite map_app, IH.
Qed.

Lemma filter_flat_map {A B} (p : B -> bool) (g : A -> list B) (l : list A) :
  List.filter p (flat_map g l) = flat_map (fun x => List.filter p (g x)) l.
Proof.
  induction l as [|x l IH]; simpl; [reflexivity|].
  now rewrite List.filter_app, IH.
Qed.

Lemma flat_map_flat_map {A B C} (f : B -> list C) (g : A -> list B)
  (l : list A) :
  flat_map f (flat_map g l) = flat_map (fun x => flat_map f (g x)) l.
Proof.
  induction l as [|x l IH]; simpl; [reflexivity|].
  now rewrite flat_map_app, IH.
Qed.

Lemma flat_map_nil {A B} (l : list A) :
  flat_map (fun _ : A => @nil B) l = [].
Proof. induction l; simpl; auto. Qed.

Lemma filter_filter {A} (p q : A -> bool) (l : list A) :
  List.filter p (List.filter q l) = List.filter (fun x => q x && p x) l.
Proof.
  induction l as [|x l IH]; simpl; [reflexivity|].
  destruct (q x); simpl; [destruct (p x)|]; now rewrite IH.
Qed.

Lemma filter_true {A} (l : list A) : List.filter (fun _ => true) l = l.
Proof. induction l as [|x l IH]; simpl; [reflexivity|]. now rewrite IH. Qed.

(** [get_text] reads the strings and forgets where they stood. *)
Lemma all_strings_located (n : Node) :
  forall around, Soup.all_strings n = map snd (Soup.located_strings around n).
Proof.
  induction n as [s|s|name contents IH] using Node_forest_ind;
    intros around; simpl; try reflexivity.
  rewrite map_flat_map. apply flat_map_Forall_ext.
  eapply List.Forall_impl; [|exact IH]. intros c Hc. apply Hc.
Qed.

(** Under an element named [tag], nothing is clear of [tag]. *)
Lemma located_under_tag (tag : string) (n : Node) :
  forall around,
    existsb (String.eqb tag) around = true ->
    List.filter (fun p => Soup.clear_of tag (fst p))
      (Soup.located_strings around n) = [].
Proof.
  induction n as [s|s|name contents IH] using Node_forest_ind;
    intros around Hin; simpl.
  - unfold Soup.clear_of. simpl. now rewrite Hin.
  - reflexivity.
  - rewrite filter_flat_map.
    rewrite (flat_map_Forall_ext _ (fun _ => [])); [apply flat_map_nil|].
    eapply List.Forall_impl; [|exact IH]. intros c Hc. apply Hc.
    simpl. rewrite Hin. apply orb_true_r.
Qed.

(** Decomposing the elements named [tag] removes exactly the strings
    that stood inside one. *)
Lemma located_prune (tag : string) (n : Node) :
  forall around,
    Soup.clear_of tag around = true ->
    flat_map (Soup.located_strings around) (Soup.prune tag n) =
    List.filter (fun p => Soup.clear_of tag (fst p))
      (Soup.located_strings around n).
Proof.
  induction n as [s|s|name contents IH] using Node_forest_ind;
    intros around Hclear.
  - simpl. now rewrite Hclear.
  - reflexivity.
  - simpl. destruct (String.eqb name tag) eqn:E.
    + apply String.eqb_eq in E. subst name. simpl.
      rewrite filter_flat_map.
      rewrite (flat_map_Forall_ext _ (fun _ => [])).
      * now rewrite flat_map_nil.
      * apply Forall_forall. intros c _. apply located_under_tag.
        simpl. now rewrite String.eqb_refl.
    + simpl. rewrite app_nil_r, flat_map_flat_map, filter_flat_map.
      apply flat_map_Forall_ext.
      eapply List.Forall_impl; [|exact IH]. intros c Hc. apply Hc.
      unfold Soup.clear_of in *. simpl.
      rewrite String.eqb_sym, E. exact Hclear.
Qed.

Lemma located_decompose_all (tag : string) (nodes : list Node) :
  flat_map (Soup.located_strings []) (Soup.decompose_all tag nodes) =
  List.filter (fun p => Soup.clear_of tag (fst p))
    (flat_map (Soup.located_strings []) nodes).
Proof.
  unfold Soup.decompose_all.
  rewrite flat_map_flat_map, filter_flat_map.
  apply flat_map_Forall_ext, Forall_forall. intros n _.
  now apply located_prune.
Qed.

Lemma located_decompose_each (tags : list string) :
  forall nodes,
    flat_map (Soup.located_strings [])
      (fold_left (fun soup tag => Soup.decompose_all tag soup) tags nodes) =
    List.filter (fun p => forallb (fun tag => Soup.clear_of tag (fst p)) tags)
      (flat_map (Soup.located_strings []) nodes).
Proof.
  induction tags as [|tag tags IH]; intros nodes; simpl.
  - now rewrite filter_true.
  - rewrite IH, located_decompose_all, filter_filter. reflexivity.
Qed.

Lemma get_text_visible (tags : list string) (nodes : list Node) :
  Soup.get_text Str.nl
    (fold_left (fun soup tag => Soup.decompose_all tag soup) tags nodes) =
  Str.join Str.nl
    (List.filter Str.truthy (map Str.strip (Soup.visible_strings tags nodes))).
Proof.
  unfold Soup.get_text, Soup.visible_strings.
  rewrite <- located_decompose_each.
  do 3 f_equal.
  rewrite map_flat_map.
  apply flat_map_Forall_ext, Forall_forall. intros n _.
  apply all_strings_located.
Qed.


(** ** The loop and its bound *)

Section LoopBound.

Context {World : Type} {X : Externals World}.

(** The [try]/[except Exception] around the body leaves no exception. *)
Lemma main_step_returns (conversation_history : list Message) (w : World) :
  exists r w', Main.step conversation_history w = (Ok r, w').
Proof.
  unfold Main.step, try_except_all.
  destruct (bind _ _ w) as [[r|e] w']; unfold ret; eauto.
Qed.

Lemma experimental_step_returns (conversation_history : list Message)
  (s : Experimental.Agent) :
  exists r s', Experimental.step conversation_history s = (Ok r, s').
Proof.
  unfold Experimental.step, try_except_all.
  destruct (bind _ _ s) as [[r|e] s']; unfold ret; eauto.
Qed.

Lemma main_loop_returns (n : nat) :
  forall conversation_history (w : World),
    exists v w', Main.loop n conversation_history w = (Ok v, w').
Proof.
  induction n as [|n IH]; intros conv w; simpl.
  - unfold ret. eauto.
  - unfold bind.
    destruct (main_step_returns conv w) as (r & w' & Hstep). rewrite Hstep.
    destruct r as [conv'|v]; [apply IH|unfold ret; eauto].
Qed.

Lemma experimental_loop_returns (n : nat) :
  forall conversation_history (s : Experimental.Agent),
    exists v s', Experimental.loop n conversation_history s = (Ok v, s').
Proof.
  induction n as [|n IH]; intros conv s; simpl.
  - unfold ret. eauto.
  - unfold bind.
    destruct (experimental_step_returns conv s) as (r & s' & Hstep).
    rewrite Hstep.
    destruct r as [conv'|v]; [apply IH|unfold ret; eauto].
Qed.

Lemma main_passes_le (n : nat) :
  forall conversation_history (w : World),
    (Main.passes n conversation_history w <= n)%nat.
Proof.
  induction n as [|n IH]; intros conv w; simpl; [lia|].
  destruct (Main.step conv w) as [[[conv'|v]|e] w']; try lia.
  specialize (IH conv' w'). lia.
Qed.

Lemma experimental_passes_le (n : nat) :
  forall conversation_history (s : Experimental.Agent),
    (Experimental.passes n conversation_history s <= n)%nat.
Proof.
  induction n as [|n IH]; intros conv s; simpl; [lia|].
  destruct (Experimental.step conv s) as [[[conv'|v]|e] s']; try lia.
  specialize (IH conv' s'). lia.
Qed.

Lemma main_falls_through_exhausts (n : nat) :
  forall conversation_history (w : World),
    Main.falls_through n conversation_history w ->
    fst (Main.loop n conversation_history w) = Ok (JStr MAX_STEPS_REACHED) /\
    Main.passes n conversation_history w = n.
Proof.
  induction n as [|n IH]; intros conv w Hft; simpl in *; [auto|].
  unfold bind.
  destruct (Main.step conv w) as [[[conv'|v]|e] w']; try contradiction.
  destruct (IH conv' w' Hft) as [Hres Hn]. now rewrite Hn.
Qed.

Lemma experimental_falls_through_exhausts (n : nat) :
  forall conversation_history (s : Experimental.Agent),
    Experimental.falls_through n conversation_history s ->
    fst (Experimental.loop n conversation_history s)
      = Ok (JStr MAX_STEPS_REACHED) /\
    Experimental.passes n conversation_history s = n.
Proof.
  induction n as [|n IH]; intros conv s Hft; simpl in *; [auto|].
  unfold bind.
  destruct (Experimental.step conv s) as [[[conv'|v]|e] s']; try contradiction.
  destruct (IH conv' s' Hft) as [Hres Hn]. now rewrite Hn.
Qed.

Ltac split_pass :=
  repeat (cbv beta iota;
          match goal with
          | |- context [getitem ?a ?k] => destruct (getitem a k)
          | |- context [dict_get ?a ?k] => destruct (dict_get a k)
          | |- context [fetch_website ?u ?w] =>
              destruct (fetch_website u w) as [[?|?] ?]
          | |- context [fetch_dynamic_content ?u ?x ?w] =>
              destruct (fetch_dynamic_content u x w) as [[?|?] ?]
          | |- context [uuid4 ?w] => destruct (uuid4 w)
          | |- context [Experimental.falsy ?c] =>
              destruct (Experimental.falsy c)
          | |- context [match ?k with JNull => _ | _ => _ end] =>
              is_var k; destruct k
          end).

Ltac close_pass H :=
  intros H; try discriminate; inversion H; subst;
  first [ left; reflexivity
        | right; left; eexists (mkExn OtherException _); reflexivity ].

Lemma main_step_return_kinds conversation_history (w w' : World) (v : PyVal) :
  Main.step conversation_history w = (Ok (Return v), w') ->
  terminal_value v.
Proof.
  unfold Main.step, try_except_all, bind at 1, bind at 1, bind at 1, lift, ret.
  destruct (session_post conversation_history w) as [[response|e] w1];
    [|close_pass H].
  destruct (message_content response) as [llm_message|e]; [|close_pass H].
  destruct (Main._parse_llm_response llm_message) as [action|e];
    [|close_pass H].
  unfold Main.dispatch, bind, lift, ret.
  destruct (getitem action "action") as [tag|e] eqn:Etag; [|close_pass H].
  destruct (py_eq_str tag "response") eqn:Eresp.
  { destruct (getitem action "content") as [c|e] eqn:Ec; [|close_pass H].
    intros H; inversion H; subst. right; right; eauto 6. }
  destruct (py_eq_str tag "fetch");
    [|destruct (py_eq_str tag "render");
      [|destruct (py_eq_str tag "extract")]];
    split_pass; close_pass H.
Qed.

Lemma experimental_step_return_kinds conversation_history
  (s s' : Experimental.Agent) (v : PyVal) :
  Experimental.step conversation_history s = (Ok (Return v), s') ->
  terminal_value v.
Proof.
  unfold Experimental.step, try_except_all, bind at 1, bind at 1, bind at 1,
    lift, Experimental.outside, ret.
  destruct (session_post conversation_history (Experimental.world s))
    as [[response|e] w1]; [|close_pass H].
  destruct (message_content response) as [llm_message|e]; [|close_pass H].
  destruct (Experimental._parse_llm_response llm_message) as [action|e];
    [|close_pass H].
  unfold Experimental.dispatch, bind, lift, ret, Experimental.outside,
    Experimental._store_content, Experimental.store_get, total, bind, ret.
  destruct (getitem action "action") as [tag|e] eqn:Etag; [|close_pass H].
  destruct (py_eq_str tag "response") eqn:Eresp.
  { destruct (getitem action "content") as [c|e] eqn:Ec; [|close_pass H].
    intros H; inversion H; subst. right; right; eauto 6. }
  destruct (py_eq_str tag "fetch");
    [|destruct (py_eq_str tag "render");
      [|destruct (py_eq_str tag "extract")]];
    unfold Experimental.outside; split_pass; close_pass H.
Qed.

End LoopBound.

(** C1.  In both files, whatever the endpoint and the adapters answer,
    the loop body runs at most 5 times and the method returns a value.
    A pass leaves the loop only with the content of a [response] action,
    with ["ERROR: Invalid action requested"] or with an
    ["AGENT_ERROR: ..."] string; when none of the passes leaves the
    loop, the body runs exactly 5 times and the value is
    ["MAX_STEPS_REACHED: Processing limit exceeded"]. *)
Theorem C1_loop_runs_at_most_five_passes
  (World : Type) (X : Externals World) (user_query : string)
  (w : World) (store : gmap string string) :
  let seed := [system_message GROQ_SYSTEM_PROMPT; user_message user_query] in
  let s := Experimental.mkAgent store w in
  ((Main.passes max_steps seed w <= 5)%nat /\
   (exists v w', Main.execute_agent_loop user_query w = (Ok v, w')) /\
   (forall conversation_history w1 w2 v,
      Main.step conversation_history w1 = (Ok (Return v), w2) ->
      terminal_value v) /\
   (Main.falls_through max_steps seed w ->
    fst (Main.execute_agent_loop user_query w)
      = Ok (JStr "MAX_STEPS_REACHED: Processing limit exceeded") /\
    Main.passes max_steps seed w = 5%nat)) /\
  ((Experimental.passes max_steps seed s <= 5)%nat /\
   (exists v s',
      Experimental._run_scraping_operations user_query s = (Ok v, s')) /\
   (forall conversation_history s1 s2 v,
      Experimental.step conversation_history s1 = (Ok (Return v), s2) ->
      terminal_value v) /\
   (Experimental.falls_through max_steps seed s ->
    fst (Experimental._run_scraping_operations user_query s)
      = Ok (JStr "MAX_STEPS_REACHED: Processing limit exceeded") /\
    Experimental.passes max_steps seed s = 5%nat)).
Proof.
  intros seed s. split; (split; [|split; [|split]]).
  - apply main_passes_le.
  - apply main_loop_returns.
  - apply main_step_return_kinds.
  - apply main_falls_through_exhausts.
  - apply experimental_passes_le.
  - apply experimental_loop_returns.
  - apply experimental_step_return_kinds.
  - apply experimental_falls_through_exhausts.
Qed.

Lemma C1_stubborn_model_witness :
  let seed :=
    [system_message GROQ_SYSTEM_PROMPT; user_message "headlines?"] in
  (fst (Main.execute_agent_loop "headlines?"
          (Scripted.start Scripted.stubborn []))
     = Ok (JStr "MAX_STEPS_REACHED: Processing limit exceeded") /\
   Main.passes max_steps seed (Scripted.start Scripted.stubborn []) = 5%nat) /\
  (fst (Experimental._run_scraping_operations "headlines?"
          (Scripted.agent Scripted.stubborn []))
     = Ok (JStr "MAX_STEPS_REACHED: Processing limit exceeded") /\
   Experimental.passes max_steps seed (Scripted.agent Scripted.stubborn [])
     = 5%nat).
Proof.
  intros seed.
  destruct (C1_loop_runs_at_most_five_passes Scripted.World Scripted.externals
              "headlines?" (Scripted.start Scripted.stubborn []) ∅)
    as [(_ & _ & _ & Hmain) (_ & _ & _ & Hexp)].
  split.
  - apply Hmain. vm_compute. exact I.
  - apply Hexp. vm_compute. exact I.
Defined.

(** ** The decoders *)

Section Decoders.

Context {World : Type} {X : Externals World}.

(** Once the reply is decoded, a pass is the dispatch under the
    [except Exception] of the loop. *)
Lemma main_step_decoded conversation_history (w w' : World) reply action :
  Main.replies_with conversation_history w reply w' ->
  Main._parse_llm_response (JStr reply) = Ok action ->
  Main.step conversation_history w =
  match Main.dispatch action conversation_history w' with
  | (Ok r, w'') => (Ok r, w'')
  | (Raise e, w'') => (Ok (Return (JStr ("AGENT_ERROR: " +:+ exn_str e))), w'')
  end.
Proof.
  intros (response & Hpost & Hcontent) Hparse.
  unfold Main.step, try_except_all, bind, lift.
  rewrite Hpost, Hcontent, Hparse. reflexivity.
Qed.

Lemma experimental_step_decoded conversation_history
  (s s' : Experimental.Agent) reply action :
  Experimental.replies_with conversation_history s reply s' ->
  Experimental._parse_llm_response (JStr reply) = Ok action ->
  Experimental.step conversation_history s =
  match Experimental.dispatch action conversation_history s' with
  | (Ok r, s'') => (Ok r, s'')
  | (Raise e, s'') => (Ok (Return (JStr ("AGENT_ERROR: " +:+ exn_str e))), s'')
  end.
Proof.
  intros (response & Hpost & Hcontent & Hstore) Hparse.
  unfold Experimental.step, try_except_all, bind, lift, Experimental.outside.
  rewrite Hpost, Hcontent, Hparse.
  destruct s' as [store' w']. simpl in *. subst store'. reflexivity.
Qed.

(** When both attempts fail, the decoder of experimental.py answers
    with a [response] action that carries the first failure. *)
Lemma experimental_parse_failure (reply : string) (e e' : Exn) :
  Experimental.fenced_attempt reply = Raise e ->
  caught_by [IndexError; JSONDecodeError] e = true ->
  json_loads (Experimental.braced_span reply) = Raise e' ->
  Experimental._parse_llm_response (JStr reply)
  = Ok (response_action ("PARSE_ERROR: " +:+ exn_str e)).
Proof.
  intros H1 Hc H2. unfold Experimental._parse_llm_response.
  now rewrite H1, Hc, H2.
Qed.

(** When its one attempt fails, the decoder of main.py answers with a
    [response] action that carries the reply itself. *)
Lemma main_parse_failure (reply : string) (e : Exn) :
  Main.fenced_attempt reply = Raise e ->
  caught_by [IndexError; JSONDecodeError] e = true ->
  Main._parse_llm_response (JStr reply) = Ok (response_action reply).
Proof.
  intros H1 Hc. unfold Main._parse_llm_response. now rewrite H1, Hc.
Qed.

Lemma experimental_dispatch_response fields content conversation_history
  (s : Experimental.Agent) :
  dict_lookup "action" fields = Some (JStr "response") ->
  dict_lookup "content" fields = Some content ->
  Experimental.dispatch (JObj fields) conversation_history s
  = (Ok (Return content), s).
Proof.
  intros Ha Hc. unfold Experimental.dispatch, bind, lift, getitem.
  rewrite Ha. simpl. now rewrite Hc.
Qed.

Lemma main_dispatch_response fields content conversation_history (w : World) :
  dict_lookup "action" fields = Some (JStr "response") ->
  dict_lookup "content" fields = Some content ->
  Main.dispatch (JObj fields) conversation_history w
  = (Ok (Return content), w).
Proof.
  intros Ha Hc. unfold Main.dispatch, bind, lift, getitem.
  rewrite Ha. simpl. now rewrite Hc.
Qed.

Lemma experimental_dispatch_unrecognized fields tag conversation_history
  (s : Experimental.Agent) :
  dict_lookup "action" fields = Some tag ->
  recognized tag = false ->
  Experimental.dispatch (JObj fields) conversation_history s
  = (Ok (Return (JStr "ERROR: Invalid action requested")), s).
Proof.
  intros Ha Hr. unfold recognized in Hr.
  apply orb_false_elim in Hr as [Hr Hx].
  apply orb_false_elim in Hr as [Hr Hn].
  apply orb_false_elim in Hr as [Hr Hf].
  unfold Experimental.dispatch, bind, lift, getitem.
  rewrite Ha. now rewrite Hr, Hf, Hn, Hx.
Qed.

Lemma experimental_dispatch_no_action fields conversation_history
  (s : Experimental.Agent) :
  dict_lookup "action" fields = None ->
  Experimental.dispatch (JObj fields) conversation_history s
  = (Raise (mkExn KeyError "'action'"), s).
Proof.
  intros Ha. unfold Experimental.dispatch, bind, lift, getitem.
  now rewrite Ha.
Qed.

End Decoders.




(** ** A reply that cannot be decoded, in the loop *)

Section Garbage.

Context {World : Type} {X : Externals World}.

Lemma is_error_parse_error (text : string) :
  Experimental._is_error (X := X) (JStr ("PARSE_ERROR: " +:+ text)) = Ok true.
Proof. reflexivity. Qed.

(** experimental.py leaves the loop at once, with a string that
    [_is_error] knows. *)
Lemma experimental_garbage_ends_loop conversation_history
  (s s' : Experimental.Agent) reply e e' :
  Experimental.replies_with conversation_history s reply s' ->
  Experimental.fenced_attempt reply = Raise e ->
  caught_by [IndexError; JSONDecodeError] e = true ->
  json_loads (Experimental.braced_span reply) = Raise e' ->
  Experimental.step conversation_history s
  = (Ok (Return (JStr ("PARSE_ERROR: " +:+ exn_str e))), s').
Proof.
  intros Hreply H1 Hc H2.
  rewrite (experimental_step_decoded _ _ _ _ _ Hreply
             (experimental_parse_failure _ _ _ H1 Hc H2)).
  reflexivity.
Qed.

(** main.py leaves the loop at once too, and what it returns is the
    reply. *)
Lemma main_garbage_is_returned conversation_history (w w' : World) reply e :
  Main.replies_with conversation_history w reply w' ->
  Main.fenced_attempt reply = Raise e ->
  caught_by [IndexError; JSONDecodeError] e = true ->
  Main.step conversation_history w = (Ok (Return (JStr reply)), w').
Proof.
  intros Hreply H1 Hc.
  rewrite (main_step_decoded _ _ _ _ _ Hreply (main_parse_failure _ _ H1 Hc)).
  reflexivity.
Qed.

End Garbage.

(** C3, at a reply that holds no JSON.  experimental.py ends the loop
    in its first pass and reports [{"error": "PARSE_ERROR: ..."}];
    main.py ends the loop in its first pass as well, but what it
    returns, as the answer to the query, is the reply it could not
    decode. *)
Theorem C3_main_returns_the_undecodable_reply_as_answer :
  let reply := "I could not find anything." in
  let endpoint := [Scripted.chat reply] in
  Main.execute_agent_loop "headlines?" (Scripted.start endpoint [])
    = (Ok (JStr reply), Scripted.start [] []) /\
  Main.passes max_steps
    [system_message GROQ_SYSTEM_PROMPT; user_message "headlines?"]
    (Scripted.start endpoint []) = 1%nat /\
  Experimental._run_scraping_operations "headlines?"
      (Scripted.agent endpoint [])
    = (Ok (JStr "PARSE_ERROR: list index out of range"),
       Scripted.agent [] []) /\
  Experimental.execute_agent_loop "headlines?" (Scripted.agent endpoint [])
    = (Ok (JObj [("error", JStr "PARSE_ERROR: list index out of range")]),
       Scripted.agent [] []).
Proof. split; [|split; [|split]]; vm_compute; reflexivity. Qed.

(** ** Fenced blocks *)

Lemma string_of_list_app (l1 l2 : list ascii) :
  string_of_list_ascii (l1 ++ l2)
  = string_of_list_ascii l1 +:+ string_of_list_ascii l2.
Proof.
  induction l1 as [|c l1 IH]; [reflexivity|].
  change (String c (string_of_list_ascii (l1 ++ l2))
          = String c (string_of_list_ascii l1 +:+ string_of_list_ascii l2)).
  f_equal. exact IH.
Qed.

Lemma rev_cons_string (c : ascii) (cur : list ascii) :
  string_of_list_ascii (rev (c :: cur))
  = string_of_list_ascii (rev cur) +:+ String c EmptyString.
Proof. simpl. apply string_of_list_app. Qed.

Lemma append_assoc (a b c : string) : (a +:+ b) +:+ c = a +:+ (b +:+ c).
Proof.
  induction a as [|x a IH]; [reflexivity|].
  change (String x ((a +:+ b) +:+ c) = String x (a +:+ (b +:+ c))).
  f_equal. exact IH.
Qed.

Lemma startswith_weaken (p q z : string) :
  Str.startswith (p +:+ q) z = true -> Str.startswith p z = true.
Proof.
  revert z. induction p as [|a p IH]; intros z H; simpl in *; [reflexivity|].
  destruct z as [|b z]; [discriminate|].
  destruct (Ascii.eqb a b); [now apply IH|discriminate].
Qed.

Lemma free_of_cons (sub : string) (c : ascii) (s : string) :
  Str.free_of sub (String c s)
  = negb (Str.startswith sub (String c s)) && Str.free_of sub s.
Proof. reflexivity. Qed.

(** A fence cannot run over a line end. *)
Lemma startswith_fence_line (x y : string) :
  Str.startswith "```" (x +:+ Str.nl +:+ y) = Str.startswith "```" x.
Proof.
  destruct x as [|a [|b [|c x]]]; simpl;
    repeat match goal with
           | |- context [Ascii.eqb "`" ?v] =>
               is_var v; destruct (Ascii.eqb "`" v)
           end; reflexivity.
Qed.

(** The text between two fences: a body that holds no fence is read up
    to the closing one. *)
Lemma split_go_closing_fence (body : string) :
  forall cur,
    Str.free_of "```" body = true ->
    Str.split_go "```" 0 cur (body +:+ Str.nl +:+ "```")
    = [string_of_list_ascii (rev cur) +:+ body +:+ Str.nl; ""].
Proof.
  induction body as [|c body IH]; intros cur Hfree.
  - change (Str.split_go "```" 0 cur (EmptyString +:+ Str.nl +:+ "```"))
      with [string_of_list_ascii (rev (ascii_of_nat 10 :: cur)); ""].
    now rewrite rev_cons_string.
  - rewrite free_of_cons in Hfree.
    apply andb_true_iff in Hfree as [Hhere Hrest].
    apply negb_true_iff in Hhere.
    change (Str.split_go "```" 0 cur (String c body +:+ Str.nl +:+ "```"))
      with (if Str.startswith "```" (String c body +:+ Str.nl +:+ "```")
            then string_of_list_ascii (rev cur)
                   :: Str.split_go "```" 2 [] (body +:+ Str.nl +:+ "```")
            else Str.split_go "```" 0 (c :: cur) (body +:+ Str.nl +:+ "```")).
    rewrite startswith_fence_line, Hhere, (IH _ Hrest), rev_cons_string.
    now rewrite append_assoc.
Qed.

(** No [```json] starts in a body that holds no fence, nor at its
    closing fence. *)
Lemma split_go_no_json_fence (body : string) :
  forall cur,
    Str.free_of "```" body = true ->
    Str.split_go "```json" 0 cur (body +:+ Str.nl +:+ "```")
    = [string_of_list_ascii (rev cur) +:+ body +:+ Str.nl +:+ "```"].
Proof.
  induction body as [|c body IH]; intros cur Hfree.
  - change (Str.split_go "```json" 0 cur (EmptyString +:+ Str.nl +:+ "```"))
      with [string_of_list_ascii
              (rev ("`" :: "`" :: "`" :: ascii_of_nat 10 :: cur)%char)].
    now rewrite !rev_cons_string, !append_assoc.
  - rewrite free_of_cons in Hfree.
    apply andb_true_iff in Hfree as [Hhere Hrest].
    apply negb_true_iff in Hhere.
    change (Str.split_go "```json" 0 cur
              (String c body +:+ Str.nl +:+ "```"))
      with (if Str.startswith "```json"
                 (String c body +:+ Str.nl +:+ "```")
            then string_of_list_ascii (rev cur)
                   :: Str.split_go "```json" 6 []
                        (body +:+ Str.nl +:+ "```")
            else Str.split_go "```json" 0 (c :: cur)
                   (body +:+ Str.nl +:+ "```")).
    destruct (Str.startswith "```json" (String c body +:+ Str.nl +:+ "```"))
      eqn:E.
    + apply (startswith_weaken "```" "json") in E.
      rewrite startswith_fence_line in E. congruence.
    + rewrite (IH _ Hrest), rev_cons_string. now rewrite append_assoc.
Qed.

Lemma split_fenced_json (body : string) :
  Str.free_of "```" body = true ->
  Str.split "```" (fenced_json body)
  = [""; "json" +:+ Str.nl +:+ body +:+ Str.nl; ""].
Proof.
  intros Hfree.
  change (Str.split "```" (fenced_json body))
    with ("" :: Str.split_go "```" 0
                  [ascii_of_nat 10; "n"; "o"; "s"; "j"]%char
                  (body +:+ Str.nl +:+ "```")).
  now rewrite (split_go_closing_fence _ _ Hfree).
Qed.

Lemma split_fenced_plain (body : string) :
  Str.free_of "```" body = true ->
  Str.split "```" (fenced_plain body) = [""; Str.nl +:+ body +:+ Str.nl; ""].
Proof.
  intros Hfree.
  change (Str.split "```" (fenced_plain body))
    with ("" :: Str.split_go "```" 0 [ascii_of_nat 10]
                  (body +:+ Str.nl +:+ "```")).
  now rewrite (split_go_closing_fence _ _ Hfree).
Qed.

Lemma split_json_fenced_json (body : string) :
  Str.free_of "```" body = true ->
  Str.split "```json" (fenced_json body)
  = [""; Str.nl +:+ body +:+ Str.nl +:+ "```"].
Proof.
  intros Hfree.
  change (Str.split "```json" (fenced_json body))
    with ("" :: Str.split_go "```json" 0 [ascii_of_nat 10]
                  (body +:+ Str.nl +:+ "```")).
  now rewrite (split_go_no_json_fence _ _ Hfree).
Qed.

Lemma length_append (a b : string) :
  String.length (a +:+ b) = (String.length a + String.length b)%nat.
Proof.
  induction a as [|x a IH]; [reflexivity|].
  change (S (String.length (a +:+ b))
          = S (String.length a + String.length b)%nat).
  now rewrite IH.
Qed.

Lemma substring_whole (s : string) : substring 0 (String.length s) s = s.
Proof.
  induction s as [|c s IH]; [reflexivity|]. simpl. now rewrite IH.
Qed.

Lemma substring_after (p s : string) :
  substring (String.length p) (String.length s) (p +:+ s) = s.
Proof.
  induction p as [|c p IH]; [apply substring_whole|]. exact IH.
Qed.

Lemma slice_from_append (p s : string) :
  Str.slice_from (p +:+ s) (Str.len p) = s.
Proof.
  unfold Str.slice_from, Str.slice, Str.clamp, Str.len.
  rewrite length_append.
  destruct (Z.of_nat (String.length p) <? 0) eqn:E1;
    [apply Z.ltb_lt in E1; lia|].
  destruct (Z.of_nat (String.length p + String.length s) <? 0) eqn:E2;
    [apply Z.ltb_lt in E2; lia|].
  replace (Z.to_nat (Z.min (Z.of_nat (String.length p))
                       (Z.of_nat (String.length p + String.length s))))
    with (String.length p) by lia.
  replace (Z.to_nat _) with (String.length s) by lia.
  apply substring_after.
Qed.

Section FencedBlocks.

Context {World : Type} {X : Externals World}.

Lemma experimental_attempt_fenced_json (body : string) :
  Str.free_of "```" body = true ->
  Experimental.fenced_attempt (fenced_json body)
  = json_loads (body +:+ Str.nl).
Proof.
  intros Hfree. unfold Experimental.fenced_attempt.
  rewrite (split_fenced_json _ Hfree).
  change (list_getitem _ 1)
    with (Ok (Experimental.json_tag +:+ (body +:+ Str.nl))).
  unfold obind. rewrite startswith_app.
  f_equal. exact (slice_from_append Experimental.json_tag (body +:+ Str.nl)).
Qed.

Lemma experimental_attempt_fenced_plain (body : string) :
  Str.free_of "```" body = true ->
  Experimental.fenced_attempt (fenced_plain body)
  = json_loads (Str.nl +:+ body +:+ Str.nl).
Proof.
  intros Hfree. unfold Experimental.fenced_attempt.
  now rewrite (split_fenced_plain _ Hfree).
Qed.

Lemma main_attempt_fenced_json (body : string) :
  Str.free_of "```" body = true ->
  Main.fenced_attempt (fenced_json body)
  = json_loads (Str.strip (Str.nl +:+ body +:+ Str.nl)).
Proof.
  intros Hfree. unfold Main.fenced_attempt.
  rewrite (split_json_fenced_json _ Hfree).
  change (list_getitem _ 1) with (Ok (Str.nl +:+ body +:+ Str.nl +:+ "```")).
  unfold obind at 1.
  change (Str.split "```" (Str.nl +:+ body +:+ Str.nl +:+ "```"))
    with (Str.split_go "```" 0 [ascii_of_nat 10]
            (body +:+ Str.nl +:+ "```")).
  now rewrite (split_go_closing_fence _ _ Hfree).
Qed.

(** A block without the [json] tag holds no [```json]: the one attempt
    of main.py ends at the subscript. *)
Lemma main_attempt_fenced_plain (body : string) :
  Str.free_of "```" body = true ->
  Main.fenced_attempt (fenced_plain body)
  = Raise (mkExn IndexError "list index out of range").
Proof.
  intros Hfree. unfold Main.fenced_attempt.
  change (Str.split "```json" (fenced_plain body))
    with (Str.split_go "```json" 0
            [ascii_of_nat 10; "`"; "`"; "`"]%char
            (body +:+ Str.nl +:+ "```")).
  now rewrite (split_go_no_json_fence _ _ Hfree).
Qed.

End FencedBlocks.

(** C5.  A reply that is one fenced block whose body holds no fence and
    parses as JSON: experimental.py returns the parsed value as it is,
    with or without the [json] tag on the fence, and main.py does so
    when the fence carries the tag.  When the fence carries no tag,
    main.py returns, for every body and so for each of the four shapes,
    a [response] action whose content is the whole reply. *)
Theorem C5_fenced_block_decoding (World : Type) (X : Externals World) :
  (forall body action,
     Str.free_of "```" body = true ->
     json_loads (body +:+ Str.nl) = Ok action ->
     Experimental._parse_llm_response (JStr (fenced_json body)) = Ok action) /\
  (forall body action,
     Str.free_of "```" body = true ->
     json_loads (Str.nl +:+ body +:+ Str.nl) = Ok action ->
     Experimental._parse_llm_response (JStr (fenced_plain body)) = Ok action) /\
  (forall body action,
     Str.free_of "```" body = true ->
     json_loads (Str.strip (Str.nl +:+ body +:+ Str.nl)) = Ok action ->
     Main._parse_llm_response (JStr (fenced_json body)) = Ok action) /\
  (forall body,
     Str.free_of "```" body = true ->
     Main._parse_llm_response (JStr (fenced_plain body))
     = Ok (response_action (fenced_plain body))).
Proof.
  repeat split; intros body.
  - intros action Hfree Hloads. unfold Experimental._parse_llm_response.
    now rewrite (experimental_attempt_fenced_json _ Hfree), Hloads.
  - intros action Hfree Hloads. unfold Experimental._parse_llm_response.
    now rewrite (experimental_attempt_fenced_plain _ Hfree), Hloads.
  - intros action Hfree Hloads. unfold Main._parse_llm_response.
    now rewrite (main_attempt_fenced_json _ Hfree), Hloads.
  - intros Hfree. unfold Main._parse_llm_response.
    now rewrite (main_attempt_fenced_plain _ Hfree).
Qed.

Lemma C5_fetch_block_witness :
  let body :=
    json_object_text [("action", "fetch"); ("url", "http://example.test")] in
  let action :=
    JObj [("action", JStr "fetch"); ("url", JStr "http://example.test")] in
  Experimental._parse_llm_response (X := Scripted.externals)
    (JStr (fenced_json body)) = Ok action /\
  Experimental._parse_llm_response (X := Scripted.externals)
    (JStr (fenced_plain body)) = Ok action /\
  Main._parse_llm_response (X := Scripted.externals)
    (JStr (fenced_json body)) = Ok action /\
  Main._parse_llm_response (X := Scripted.externals)
    (JStr (fenced_plain body)) = Ok (response_action (fenced_plain body)).
Proof.
  intros body action.
  destruct (C5_fenced_block_decoding Scripted.World Scripted.externals)
    as (Hjson & Hplain & Hmain & Hlost).
  split; [|split; [|split]].
  - apply Hjson; [reflexivity | vm_compute; reflexivity].
  - apply Hplain; [reflexivity | vm_compute; reflexivity].
  - apply Hmain; [reflexivity | vm_compute; reflexivity].
  - apply Hlost. reflexivity.
Defined.

(** A fence inside a JSON string: main.py cuts the block there and
    falls back on the whole reply; experimental.py recovers the object
    from the braces. *)
Example inner_fence_is_cut_by_main :
  let body :=
    json_object_text
      [("action", "response");
       ("content", "Run ```pip install operand``` first")] in
  Main._parse_llm_response (X := Scripted.externals) (JStr (fenced_json body))
    = Ok (response_action (fenced_json body)) /\
  Experimental._parse_llm_response (X := Scripted.externals)
    (JStr (fenced_json body))
    = Ok (response_action "Run ```pip install operand``` first").
Proof. split; vm_compute; reflexivity. Qed.

(** ** Dispatching [fetch] and [extract] *)

Section Dispatch.

Context {World : Type} {X : Externals World}.

Lemma fetch_website_failure (url : PyVal) (e : Exn) (w w' : World) :
  requests_get url w = (Raise e, w') ->
  fetch_website url w = (Ok ("FETCH_ERROR: " +:+ exn_str e), w').
Proof.
  intros Hget. unfold fetch_website, try_except_all, bind. now rewrite Hget.
Qed.

Lemma fetch_website_success (url : PyVal) (text : string) (w w' : World) :
  requests_get url w = (Ok text, w') ->
  fetch_website url w = (Ok (_clean_html text), w').
Proof.
  intros Hget. unfold fetch_website, try_except_all, bind. now rewrite Hget.
Qed.

Lemma main_dispatch_fetch fields url result conversation_history
  (w w' : World) :
  dict_lookup "action" fields = Some (JStr "fetch") ->
  dict_lookup "url" fields = Some url ->
  fetch_website url w = (Ok result, w') ->
  Main.dispatch (JObj fields) conversation_history w
  = (Ok (Continue (conversation_history ++
       [assistant_message
          ("Fetched content from " +:+ py_str url +:+ ":" +:+ Str.nl
           +:+ result)])), w').
Proof.
  intros Ha Hu Hf. unfold Main.dispatch, bind, lift, getitem.
  rewrite Ha. simpl. rewrite Hu, Hf. reflexivity.
Qed.

Lemma experimental_dispatch_fetch fields url result key
  conversation_history (s : Experimental.Agent) (w' w'' : World) :
  dict_lookup "action" fields = Some (JStr "fetch") ->
  dict_lookup "url" fields = Some url ->
  fetch_website url (Experimental.world s) = (Ok result, w') ->
  uuid4 w' = (key, w'') ->
  Experimental.dispatch (JObj fields) conversation_history s
  = (Ok (Continue (conversation_history ++
       [assistant_message ("FETCHED:" +:+ key +:+ "|" +:+ py_str url)])),
     Experimental.mkAgent
       (<[key := result]> (Experimental.content_store s)) w'').
Proof.
  intros Ha Hu Hf Hk.
  unfold Experimental.dispatch, bind, lift, getitem.
  rewrite Ha. simpl. rewrite Hu.
  unfold Experimental.outside. rewrite Hf.
  unfold Experimental._store_content, bind, Experimental.outside, total.
  simpl. rewrite Hk. reflexivity.
Qed.

Lemma experimental_dispatch_extract_missing fields key conversation_history
  (s : Experimental.Agent) :
  dict_lookup "action" fields = Some (JStr "extract") ->
  dict_lookup "content_id" fields = Some (JStr key) ->
  Experimental.falsy (Experimental.content_store s !! key) = true ->
  Experimental.dispatch (JObj fields) conversation_history s
  = (Ok (Continue (conversation_history ++
       [assistant_message
          ("EXTRACTED:" +:+ json_dumps ["CONTENT_NOT_FOUND"])])), s).
Proof.
  intros Ha Hk Hfalsy.
  unfold Experimental.dispatch, bind, lift, getitem.
  rewrite Ha. simpl. rewrite Hk.
  unfold Experimental.store_get. now rewrite Hfalsy.
Qed.

Lemma experimental_dispatch_extract_found fields key payload selector
  conversation_history (s : Experimental.Agent) :
  dict_lookup "action" fields = Some (JStr "extract") ->
  dict_lookup "content_id" fields = Some (JStr key) ->
  dict_lookup "selector" fields = Some selector ->
  Experimental.content_store s !! key = Some payload ->
  payload <> "" ->
  Experimental.dispatch (JObj fields) conversation_history s
  = (Ok (Continue (conversation_history ++
       [assistant_message
          ("EXTRACTED:" +:+
           json_dumps (extract_data (JStr payload) selector))])), s).
Proof.
  intros Ha Hk Hs Hstore Hne.
  unfold Experimental.dispatch, bind, lift, getitem.
  rewrite Ha. simpl. rewrite Hk.
  unfold Experimental.store_get. rewrite Hstore.
  destruct payload as [|c payload]; [contradiction|]. simpl.
  now rewrite Hs.
Qed.

Lemma store_content_spec (payload key : string) (s : Experimental.Agent)
  (w' : World) :
  uuid4 (Experimental.world s) = (key, w') ->
  Experimental._store_content payload s
  = (Ok key,
     Experimental.mkAgent
       (<[key := payload]> (Experimental.content_store s)) w').
Proof.
  intros Hk.
  unfold Experimental._store_content, bind, Experimental.outside, total.
  now rewrite Hk.
Qed.

End Dispatch.

(** C7.  The model asks for a page and the retrieval fails with [e].
    In both files the pass does not leave the loop and one assistant
    message is appended.  In main.py the message carries
    ["FETCH_ERROR: "] and the text of [e].  In experimental.py the
    message is the reference ["FETCHED:<key>|<url>"], the same as for a
    page that was retrieved, and the diagnostic is what the store holds
    under the key. *)
Theorem C7_fetch_failure_continues_the_loop
  (World : Type) (X : Externals World) (conversation_history : list Message)
  (reply : string) (fields : list (string * PyVal)) (url : PyVal) (e : Exn) :
  dict_lookup "action" fields = Some (JStr "fetch") ->
  dict_lookup "url" fields = Some url ->
  (forall w w1 w2,
     Main.replies_with conversation_history w reply w1 ->
     Main._parse_llm_response (JStr reply) = Ok (JObj fields) ->
     requests_get url w1 = (Raise e, w2) ->
     Main.step conversation_history w
     = (Ok (Continue (conversation_history ++
          [assistant_message
             ("Fetched content from " +:+ py_str url +:+ ":" +:+ Str.nl
              +:+ "FETCH_ERROR: " +:+ exn_str e)])), w2)) /\
  (forall s s1 w2 key w3,
     Experimental.replies_with conversation_history s reply s1 ->
     Experimental._parse_llm_response (JStr reply) = Ok (JObj fields) ->
     requests_get url (Experimental.world s1) = (Raise e, w2) ->
     uuid4 w2 = (key, w3) ->
     Experimental.step conversation_history s
     = (Ok (Continue (conversation_history ++
          [assistant_message ("FETCHED:" +:+ key +:+ "|" +:+ py_str url)])),
        Experimental.mkAgent
          (<[key := "FETCH_ERROR: " +:+ exn_str e]>
             (Experimental.content_store s1)) w3)).
Proof.
  intros Ha Hu. split.
  - intros w w1 w2 Hreply Hparse Hget.
    rewrite (main_step_decoded _ _ _ _ _ Hreply Hparse).
    now rewrite (main_dispatch_fetch _ _ _ _ _ _ Ha Hu
                   (fetch_website_failure _ _ _ _ Hget)).
  - intros s s1 w2 key w3 Hreply Hparse Hget Hkey.
    rewrite (experimental_step_decoded _ _ _ _ _ Hreply Hparse).
    now rewrite (experimental_dispatch_fetch _ _ _ _ _ _ _ _ Ha Hu
                   (fetch_website_failure _ _ _ _ Hget) Hkey).
Qed.

Lemma C7_timeout_witness :
  let endpoint := [Scripted.fetch_reply "http://example.test"] in
  Main.step (X := Scripted.externals) [] (Scripted.start endpoint [])
  = (Ok (Continue
       [assistant_message
          ("Fetched content from http://example.test:" +:+ Str.nl
           +:+ "FETCH_ERROR: timed out")]),
     Scripted.start [] []) /\
  Experimental.step (X := Scripted.externals) [] (Scripted.agent endpoint [])
  = (Ok (Continue [assistant_message "FETCHED:key-0|http://example.test"]),
     Experimental.mkAgent
       (<["key-0" := "FETCH_ERROR: timed out"]> ∅)
       (Scripted.mkWorld [] [] 1)).
Proof.
  intros endpoint.
  destruct (C7_fetch_failure_continues_the_loop
              Scripted.World Scripted.externals []
              (fenced_json
                 (json_object_text
                    [("action", "fetch"); ("url", "http://example.test")]))
              [("action", JStr "fetch"); ("url", JStr "http://example.test")]
              (JStr "http://example.test")
              (mkExn OtherException "timed out")
              eq_refl eq_refl) as [Hmain Hexp].
  split.
  - apply (Hmain (Scripted.start endpoint []) (Scripted.start [] [])
             (Scripted.start [] [])).
    + eexists. split; reflexivity.
    + vm_compute. reflexivity.
    + reflexivity.
  - apply (Hexp (Scripted.agent endpoint []) (Scripted.agent [] [])
             (Scripted.start [] []) "key-0" (Scripted.mkWorld [] [] 1)).
    + eexists. repeat split; reflexivity.
    + vm_compute. reflexivity.
    + reflexivity.
    + reflexivity.
Defined.

(** ** The content store *)


(** C10.  A page whose cleaned text is empty is stored as the empty
    string.  An [extract] that names its key then gives
    [["CONTENT_NOT_FOUND"]], without the extractor, and the pass is the
    same as for a key that is not in the store. *)
Theorem C10_empty_payload_reads_as_unknown_reference
  (World : Type) (X : Externals World)
  (fields : list (string * PyVal)) (key : string)
  (conversation_history : list Message) (s : Experimental.Agent) :
  dict_lookup "action" fields = Some (JStr "extract") ->
  dict_lookup "content_id" fields = Some (JStr key) ->
  Experimental.content_store s !! key = Some "" ->
  Experimental.dispatch (JObj fields) conversation_history s
  = (Ok (Continue (conversation_history ++
       [assistant_message
          ("EXTRACTED:" +:+ json_dumps ["CONTENT_NOT_FOUND"])])), s) /\
  fst (Experimental.dispatch (JObj fields) conversation_history s)
  = fst (Experimental.dispatch (JObj fields) conversation_history
           (Experimental.mkAgent
              (delete key (Experimental.content_store s))
              (Experimental.world s))).
Proof.
  intros Ha Hk Hempty.
  assert (Hhere :
    Experimental.dispatch (JObj fields) conversation_history s
    = (Ok (Continue (conversation_history ++
         [assistant_message
            ("EXTRACTED:" +:+ json_dumps ["CONTENT_NOT_FOUND"])])), s)).
  { eapply experimental_dispatch_extract_missing; eauto. now rewrite Hempty. }
  split; [exact Hhere|]. rewrite Hhere.
  rewrite (experimental_dispatch_extract_missing fields key); auto.
  simpl. now rewrite lookup_delete_eq.
Qed.


Lemma C10_empty_page_witness :
  let blank := [("http://example.test", "   ")] in
  let s :=
    snd (Experimental.step (X := Scripted.externals) []
           (Scripted.agent [Scripted.fetch_reply "http://example.test"] blank)) in
  let extract :=
    JObj [("action", JStr "extract"); ("content_id", JStr "key-0");
          ("selector", JStr "h1")] in
  Experimental.content_store s !! "key-0" = Some "" /\
  Experimental.dispatch (X := Scripted.externals) extract [] s
  = (Ok (Continue
       [assistant_message
          ("EXTRACTED:[" +:+ Str.dq +:+ "CONTENT_NOT_FOUND" +:+ Str.dq +:+ "]")]),
     s).
Proof.
  intros blank s extract.
  assert (Hstored : Experimental.content_store s !! "key-0" = Some "")
    by (vm_compute; reflexivity).
  split; [exact Hstored|].
  apply (C10_empty_payload_reads_as_unknown_reference
           Scripted.World Scripted.externals
           [("action", JStr "extract"); ("content_id", JStr "key-0");
            ("selector", JStr "h1")]
           "key-0" [] s eq_refl eq_refl Hstored).
Defined.

(** ** The formatting pass *)

Section Formatting.

Context {World : Type} {X : Externals World}.

(** A [response] in the first pass is what the scraping method returns. *)
Lemma experimental_first_response user_query (s s' : Experimental.Agent)
  reply fields content :
  Experimental.replies_with
    [system_message GROQ_SYSTEM_PROMPT; user_message user_query] s reply s' ->
  Experimental._parse_llm_response (JStr reply) = Ok (JObj fields) ->
  dict_lookup "action" fields = Some (JStr "response") ->
  dict_lookup "content" fields = Some content ->
  Experimental._run_scraping_operations user_query s = (Ok content, s').
Proof.
  intros Hreply Hparse Ha Hc.
  unfold Experimental._run_scraping_operations, max_steps.
  simpl. unfold bind at 1.
  rewrite (experimental_step_decoded _ _ _ _ _ Hreply Hparse).
  now rewrite (experimental_dispatch_response _ _ _ _ Ha Hc).
Qed.

Lemma execute_on_error user_query (s s1 : Experimental.Agent) raw :
  Experimental._run_scraping_operations user_query s = (Ok (JStr raw), s1) ->
  Str.startswith_any Experimental.error_prefixes raw = true ->
  Experimental.execute_agent_loop user_query s
  = (Ok (JObj [("error", JStr raw)]), s1).
Proof.
  intros Hrun Herr.
  unfold Experimental.execute_agent_loop, bind, lift, Experimental._is_error.
  rewrite Hrun. cbv beta iota. now rewrite Herr.
Qed.

Lemma execute_on_answer user_query (s s1 : Experimental.Agent) raw :
  Experimental._run_scraping_operations user_query s = (Ok (JStr raw), s1) ->
  Str.startswith_any Experimental.error_prefixes raw = false ->
  Experimental.execute_agent_loop user_query s
  = match Experimental._format_output (JStr raw) user_query s1 with
    | (Ok formatted, s2) =>
        (Ok (JObj [("raw_data", JStr raw); ("formatted", formatted)]), s2)
    | (Raise e, s2) => (Raise e, s2)
    end.
Proof.
  intros Hrun Herr.
  unfold Experimental.execute_agent_loop, bind, lift, Experimental._is_error.
  rewrite Hrun. cbv beta iota. rewrite Herr.
  destruct (Experimental._format_output (JStr raw) user_query s1)
    as [[formatted|e] s2]; reflexivity.
Qed.

End Formatting.

(** C8, as the code has it.  The scraping method has returned an
    answer that is no error string, and the formatting pass raises [e]:
    [execute_agent_loop] raises [e].  It returns no dictionary, so its
    caller receives neither the formatted text nor the raw answer. *)
Theorem C8_formatting_failure_loses_the_raw_answer
  (World : Type) (X : Externals World) (user_query raw : string)
  (s s1 s2 : Experimental.Agent) (e : Exn) :
  Experimental._run_scraping_operations user_query s = (Ok (JStr raw), s1) ->
  Str.startswith_any Experimental.error_prefixes raw = false ->
  Experimental._format_output (JStr raw) user_query s1 = (Raise e, s2) ->
  Experimental.execute_agent_loop user_query s = (Raise e, s2).
Proof.
  intros Hrun Hok Hformat.
  rewrite (execute_on_answer _ _ _ _ Hrun Hok). now rewrite Hformat.
Qed.

Lemma C8_endpoint_down_witness :
  Experimental.execute_agent_loop (X := Scripted.externals)
    "capital of France?"
    (Scripted.agent [Scripted.response_reply "Paris"] [])
  = (Raise (mkExn OtherException "connection refused"), Scripted.agent [] []).
Proof.
  apply (C8_formatting_failure_loses_the_raw_answer
           Scripted.World Scripted.externals "capital of France?" "Paris"
           _ (Scripted.agent [] []));
    vm_compute; reflexivity.
Defined.



(** * Further properties of the two files *)

(** ** What a pass does to the conversation, the store and the world *)

Section Passes.

Context {World : Type} {X : Externals World}.

(** The adapters turn every exception into a string. *)
Lemma fetch_website_returns (url : PyVal) (w : World) :
  exists result w', fetch_website url w = (Ok result, w').
Proof.
  unfold fetch_website, try_except_all, bind, ret.
  destruct (requests_get url w) as [[text|e] w']; eauto.
Qed.

Lemma fetch_dynamic_content_returns (url wait_for : PyVal) (w : World) :
  exists result w', fetch_dynamic_content url wait_for w = (Ok result, w').
Proof.
  unfold fetch_dynamic_content, try_except_all, bind, ret.
  destruct (playwright_content url wait_for w) as [[text|e] w']; eauto.
Qed.

Ltac cases_of_pass :=
  repeat (cbv beta iota;
          match goal with
          | |- context [getitem ?a ?k] => destruct (getitem a k)
          | |- context [dict_get ?a ?k] => destruct (dict_get a k)
          | |- context [fetch_website ?u ?w] =>
              let Hf := fresh "Hf" in
              destruct (fetch_website_returns u w) as (? & ? & Hf);
              rewrite Hf; clear Hf
          | |- context [fetch_dynamic_content ?u ?x ?w] =>
              let Hf := fresh "Hf" in
              destruct (fetch_dynamic_content_returns u x w) as (? & ? & Hf);
              rewrite Hf; clear Hf
          | |- context [uuid4 ?w] => destruct (uuid4 w)
          | |- context [Experimental.falsy ?c] =>
              destruct (Experimental.falsy c)
          | |- context [match ?k with JNull => _ | _ => _ end] =>
              is_var k; destruct k
          end).

Ltac pass_leaves := left; eexists; repeat split; reflexivity.

Ltac pass_goes_on :=
  right; eexists; split; [reflexivity|];
  first [ left; reflexivity | right; eexists; eexists; reflexivity ].

(** A pass of main.py either leaves the loop, having called nothing but
    the endpoint, or goes on with one assistant message more. *)
Lemma main_step_shape conversation_history (w w' : World) (r : Step) :
  Main.step conversation_history w = (Ok r, w') ->
  (exists v, r = Return v /\ w' = snd (session_post conversation_history w)) \/
  (exists text,
     r = Continue (conversation_history ++ [assistant_message text])).
Proof.
  unfold Main.step, try_except_all, bind at 1, bind at 1, bind at 1, lift, ret.
  destruct (session_post conversation_history w) as [[response|e] w1];
    [|intros H; inversion H; subst; left; eexists; split; reflexivity].
  destruct (message_content response) as [llm_message|e];
    [|intros H; inversion H; subst; left; eexists; split; reflexivity].
  destruct (Main._parse_llm_response llm_message) as [action|e];
    [|intros H; inversion H; subst; left; eexists; split; reflexivity].
  unfold Main.dispatch, bind, lift, ret.
  destruct (getitem action "action") as [tag|e];
    [|intros H; inversion H; subst; left; eexists; split; reflexivity].
  destruct (py_eq_str tag "response");
    [|destruct (py_eq_str tag "fetch");
      [|destruct (py_eq_str tag "render");
        [|destruct (py_eq_str tag "extract")]]];
    cases_of_pass; intros H; inversion H; subst; simpl;
    first [ left; eexists; split; reflexivity | right; eexists; reflexivity ].
Qed.

(** A pass of experimental.py either leaves the loop, having called
    nothing but the endpoint and with the store as it was, or goes on
    with one assistant message more and at most one entry written. *)
Lemma experimental_step_shape conversation_history
  (s s' : Experimental.Agent) (r : Step) :
  Experimental.step conversation_history s = (Ok r, s') ->
  (exists v,
     r = Return v /\
     Experimental.content_store s' = Experimental.content_store s /\
     Experimental.world s'
       = snd (session_post conversation_history (Experimental.world s))) \/
  (exists text,
     r = Continue (conversation_history ++ [assistant_message text]) /\
     (Experimental.content_store s' = Experimental.content_store s \/
      exists key payload,
        Experimental.content_store s'
          = <[key := payload]> (Experimental.content_store s))).
Proof.
  unfold Experimental.step, try_except_all, bind at 1, bind at 1, bind at 1,
    lift, Experimental.outside, ret.
  destruct (session_post conversation_history (Experimental.world s))
    as [[response|e] w1];
    [|intros H; inversion H; subst; pass_leaves].
  destruct (message_content response) as [llm_message|e];
    [|intros H; inversion H; subst; pass_leaves].
  destruct (Experimental._parse_llm_response llm_message) as [action|e];
    [|intros H; inversion H; subst; pass_leaves].
  unfold Experimental.dispatch, bind, lift, ret, Experimental.outside,
    Experimental._store_content, Experimental.store_get, total, bind, ret.
  destruct (getitem action "action") as [tag|e];
    [|intros H; inversion H; subst; pass_leaves].
  destruct (py_eq_str tag "response");
    [|destruct (py_eq_str tag "fetch");
      [|destruct (py_eq_str tag "render");
        [|destruct (py_eq_str tag "extract")]]];
    unfold Experimental.outside; cases_of_pass;
    intros H; inversion H; subst; simpl;
    first [ pass_leaves | pass_goes_on ].
Qed.

End Passes.

(** X1.  In both files a pass that does not leave the loop hands on the
    conversation it received with exactly one message added at the end,
    whose role is [assistant]: nothing is removed or rewritten. *)
Theorem X1_pass_appends_one_assistant_message
  (World : Type) (X : Externals World) :
  (forall conversation_history (w w' : World) (next : list Message),
     Main.step conversation_history w = (Ok (Continue next), w') ->
     exists text,
       next = (conversation_history ++ [mkMessage "assistant" text])%list) /\
  (forall conversation_history (s s' : Experimental.Agent) (next : list Message),
     Experimental.step conversation_history s = (Ok (Continue next), s') ->
     exists text,
       next = (conversation_history ++ [mkMessage "assistant" text])%list).
Proof.
  split.
  - intros conv w w' next Hstep.
    destruct (main_step_shape _ _ _ _ Hstep) as [(v & Hv & _)|(text & Ht)];
      [discriminate|].
    exists text. now inversion Ht.
  - intros conv s s' next Hstep.
    destruct (experimental_step_shape _ _ _ _ Hstep)
      as [(v & Hv & _)|(text & Ht & _)]; [discriminate|].
    exists text. now inversion Ht.
Qed.

Lemma X1_fetch_pass_witness :
  let seed := [mkMessage "system" "prompt"; mkMessage "user" "headlines?"] in
  let endpoint := [Scripted.fetch_reply "http://example.test"] in
  (exists text,
     [mkMessage "system" "prompt"; mkMessage "user" "headlines?";
      mkMessage "assistant"
        ("Fetched content from http://example.test:" +:+ Str.nl
         +:+ "FETCH_ERROR: timed out")]
     = (seed ++ [mkMessage "assistant" text])%list) /\
  (exists text,
     [mkMessage "system" "prompt"; mkMessage "user" "headlines?";
      mkMessage "assistant" "FETCHED:key-0|http://example.test"]
     = (seed ++ [mkMessage "assistant" text])%list).
Proof.
  intros seed endpoint.
  destruct (X1_pass_appends_one_assistant_message
              Scripted.World Scripted.externals) as [Hmain Hexp].
  split.
  - apply (Hmain seed (Scripted.start endpoint []) (Scripted.start [] [])).
    vm_compute. reflexivity.
  - apply (Hexp seed (Scripted.agent endpoint [])
             (Experimental.mkAgent
                (<["key-0" := "FETCH_ERROR: timed out"]> ∅)
                (Scripted.mkWorld [] [] 1))).
    vm_compute. reflexivity.
Defined.

(** X2.  A pass that leaves the loop has called the endpoint and
    nothing else: in main.py the world is the one the endpoint call
    left; in experimental.py so is the world, and the content store is
    the one the pass started with.  No page is fetched or rendered and
    no key is issued in a pass that ends with an answer or an error. *)
Theorem X2_pass_that_returns_calls_only_the_endpoint
  (World : Type) (X : Externals World) :
  (forall conversation_history (w w' : World) v,
     Main.step conversation_history w = (Ok (Return v), w') ->
     w' = snd (session_post conversation_history w)) /\
  (forall conversation_history (s s' : Experimental.Agent) v,
     Experimental.step conversation_history s = (Ok (Return v), s') ->
     Experimental.content_store s' = Experimental.content_store s /\
     Experimental.world s'
       = snd (session_post conversation_history (Experimental.world s))).
Proof.
  split.
  - intros conv w w' v Hstep.
    destruct (main_step_shape _ _ _ _ Hstep) as [(v' & _ & Hw)|(text & Ht)];
      [exact Hw|discriminate].
  - intros conv s s' v Hstep.
    destruct (experimental_step_shape _ _ _ _ Hstep)
      as [(v' & _ & Hs)|(text & Ht & _)]; [exact Hs|discriminate].
Qed.

Lemma X2_answer_pass_witness :
  let endpoint :=
    [Scripted.response_reply "Paris";
     Scripted.fetch_reply "http://example.test"] in
  let left_by_endpoint :=
    Scripted.start [Scripted.fetch_reply "http://example.test"] [] in
  snd (Main.step (X := Scripted.externals) []
         (Scripted.start endpoint [])) = left_by_endpoint /\
  Experimental.content_store
    (snd (Experimental.step (X := Scripted.externals) []
            (Scripted.agent endpoint []))) = ∅ /\
  Experimental.world
    (snd (Experimental.step (X := Scripted.externals) []
            (Scripted.agent endpoint []))) = left_by_endpoint.
Proof.
  intros endpoint left_by_endpoint.
  destruct (X2_pass_that_returns_calls_only_the_endpoint
              Scripted.World Scripted.externals) as [Hmain Hexp].
  split.
  - apply (Hmain [] (Scripted.start endpoint []) _ (JStr "Paris")).
    vm_compute. reflexivity.
  - apply (Hexp [] (Scripted.agent endpoint []) _ (JStr "Paris")).
    vm_compute. reflexivity.
Defined.

(** ** The store over a whole run *)

Lemma experimental_loop_store
  {World : Type} {X : Externals World} (n : nat) :
  forall conversation_history (s s' : Experimental.Agent) v,
    Experimental.loop n conversation_history s = (Ok v, s') ->
    (forall key,
       is_Some (Experimental.content_store s !! key) ->
       is_Some (Experimental.content_store s' !! key)) /\
    (size (Experimental.content_store s')
     <= size (Experimental.content_store s) + n)%nat.
Proof.
  induction n as [|n IH]; intros conv s s' v Hloop; simpl in Hloop.
  - unfold ret in Hloop. inversion Hloop; subst. split; [auto|lia].
  - unfold bind in Hloop.
    destruct (Experimental.step conv s) as [[r|e] s1] eqn:Hstep;
      [|discriminate].
    destruct (experimental_step_shape _ _ _ _ Hstep)
      as [(v' & -> & Hstore & _)|(text & -> & Hstore)].
    + unfold ret in Hloop. inversion Hloop; subst.
      rewrite Hstore. split; [auto|lia].
    + destruct (IH _ _ _ _ Hloop) as [Hkeys Hsize].
      destruct Hstore as [Hsame|(key & payload & Hins)].
      * rewrite Hsame in *. split; [exact Hkeys|lia].
      * rewrite Hins in *. split.
        -- intros k Hk. apply Hkeys. apply lookup_insert_is_Some'. now right.
        -- rewrite map_size_insert in Hsize.
           destruct (Experimental.content_store s !! key); simpl in Hsize; lia.
Qed.

(** X3.  Over a whole run of [_run_scraping_operations] the content
    store only grows: every key it held at the start it still holds at
    the end, and at most 5 entries are added. *)
Theorem X3_store_only_grows_by_five
  (World : Type) (X : Externals World) (user_query : string)
  (s s' : Experimental.Agent) (v : PyVal) :
  Experimental._run_scraping_operations user_query s = (Ok v, s') ->
  (forall key,
     is_Some (Experimental.content_store s !! key) ->
     is_Some (Experimental.content_store s' !! key)) /\
  (size (Experimental.content_store s')
   <= size (Experimental.content_store s) + 5)%nat.
Proof. apply experimental_loop_store. Qed.

Lemma X3_stubborn_model_witness :
  let s' :=
    snd (Experimental._run_scraping_operations (X := Scripted.externals)
           "headlines?" (Scripted.agent Scripted.stubborn [])) in
  (size (Experimental.content_store s') <= 0 + 5)%nat.
Proof.
  intros s'.
  apply (X3_store_only_grows_by_five Scripted.World Scripted.externals
           "headlines?" (Scripted.agent Scripted.stubborn []) s'
           (JStr MAX_STEPS_REACHED)).
  vm_compute. reflexivity.
Defined.

(** ** Actions with a field missing *)

Section MissingFields.

Context {World : Type} {X : Externals World}.

Lemma main_dispatch_raises_is_agent_error conversation_history
  (w w' w'' : World) reply action e :
  Main.replies_with conversation_history w reply w' ->
  Main._parse_llm_response (JStr reply) = Ok action ->
  Main.dispatch action conversation_history w' = (Raise e, w'') ->
  Main.step conversation_history w
  = (Ok (Return (JStr ("AGENT_ERROR: " +:+ exn_str e))), w'').
Proof.
  intros Hreply Hparse Hd.
  rewrite (main_step_decoded _ _ _ _ _ Hreply Hparse). now rewrite Hd.
Qed.

Lemma experimental_dispatch_raises_is_agent_error conversation_history
  (s s' s'' : Experimental.Agent) reply action e :
  Experimental.replies_with conversation_history s reply s' ->
  Experimental._parse_llm_response (JStr reply) = Ok action ->
  Experimental.dispatch action conversation_history s' = (Raise e, s'') ->
  Experimental.step conversation_history s
  = (Ok (Return (JStr ("AGENT_ERROR: " +:+ exn_str e))), s'').
Proof.
  intros Hreply Hparse Hd.
  rewrite (experimental_step_decoded _ _ _ _ _ Hreply Hparse). now rewrite Hd.
Qed.

Ltac missing_key Ha Hmiss :=
  unfold Main.dispatch, Experimental.dispatch, bind, lift, getitem;
  rewrite Ha; simpl; rewrite ?Hmiss; reflexivity.

Lemma main_dispatch_missing fields conversation_history (w : World) :
  (dict_lookup "action" fields = Some (JStr "response") ->
   dict_lookup "content" fields = None ->
   Main.dispatch (JObj fields) conversation_history w
   = (Raise (mkExn KeyError "'content'"), w)) /\
  (dict_lookup "action" fields = Some (JStr "fetch") \/
   dict_lookup "action" fields = Some (JStr "render") ->
   dict_lookup "url" fields = None ->
   Main.dispatch (JObj fields) conversation_history w
   = (Raise (mkExn KeyError "'url'"), w)) /\
  (dict_lookup "action" fields = Some (JStr "extract") ->
   dict_lookup "html" fields = None ->
   Main.dispatch (JObj fields) conversation_history w
   = (Raise (mkExn KeyError "'html'"), w)) /\
  (forall html,
     dict_lookup "action" fields = Some (JStr "extract") ->
     dict_lookup "html" fields = Some html ->
     dict_lookup "selector" fields = None ->
     Main.dispatch (JObj fields) conversation_history w
     = (Raise (mkExn KeyError "'selector'"), w)).
Proof.
  repeat split.
  - intros Ha Hm. missing_key Ha Hm.
  - intros [Ha|Ha] Hm; missing_key Ha Hm.
  - intros Ha Hm. missing_key Ha Hm.
  - intros html Ha Hh Hm.
    unfold Main.dispatch, bind, lift, getitem.
    rewrite Ha. simpl. now rewrite Hh, Hm.
Qed.

Lemma experimental_dispatch_missing fields conversation_history
  (s : Experimental.Agent) :
  (dict_lookup "action" fields = Some (JStr "response") ->
   dict_lookup "content" fields = None ->
   Experimental.dispatch (JObj fields) conversation_history s
   = (Raise (mkExn KeyError "'content'"), s)) /\
  (dict_lookup "action" fields = Some (JStr "fetch") \/
   dict_lookup "action" fields = Some (JStr "render") ->
   dict_lookup "url" fields = None ->
   Experimental.dispatch (JObj fields) conversation_history s
   = (Raise (mkExn KeyError "'url'"), s)) /\
  (dict_lookup "action" fields = Some (JStr "extract") ->
   dict_lookup "content_id" fields = None ->
   Experimental.dispatch (JObj fields) conversation_history s
   = (Raise (mkExn KeyError "'content_id'"), s)) /\
  (forall key payload,
     dict_lookup "action" fields = Some (JStr "extract") ->
     dict_lookup "content_id" fields = Some (JStr key) ->
     Experimental.content_store s !! key = Some payload ->
     payload <> "" ->
     dict_lookup "selector" fields = None ->
     Experimental.dispatch (JObj fields) conversation_history s
     = (Raise (mkExn KeyError "'selector'"), s)).
Proof.
  repeat split.
  - intros Ha Hm. missing_key Ha Hm.
  - intros [Ha|Ha] Hm; missing_key Ha Hm.
  - intros Ha Hm. missing_key Ha Hm.
  - intros key payload Ha Hk Hstore Hne Hm.
    unfold Experimental.dispatch, bind, lift, getitem.
    rewrite Ha. simpl. rewrite Hk.
    unfold Experimental.store_get. rewrite Hstore.
    destruct payload as [|c payload]; [contradiction|]. simpl.
    now rewrite Hm.
Qed.

End MissingFields.

(** X4.  An action that lacks a field its branch reads ends the loop in
    that pass with ["AGENT_ERROR: '<field>'"], before any adapter is
    called: [content] for a response, [url] for a fetch or a render;
    for an extract, [html] and then [selector] in main.py, [content_id]
    in experimental.py and, once a non-empty payload is found under the
    key, [selector]. *)
Theorem X4_missing_field_is_an_agent_error
  (World : Type) (X : Externals World) (reply : string)
  (fields : list (string * PyVal)) (conversation_history : list Message) :
  (forall w w' : World,
     Main.replies_with conversation_history w reply w' ->
     Main._parse_llm_response (JStr reply) = Ok (JObj fields) ->
     let ends_with field :=
       Main.step conversation_history w
       = (Ok (Return (JStr ("AGENT_ERROR: '" +:+ field +:+ "'"))), w') in
     (dict_lookup "action" fields = Some (JStr "response") ->
      dict_lookup "content" fields = None -> ends_with "content") /\
     (dict_lookup "action" fields = Some (JStr "fetch") \/
      dict_lookup "action" fields = Some (JStr "render") ->
      dict_lookup "url" fields = None -> ends_with "url") /\
     (dict_lookup "action" fields = Some (JStr "extract") ->
      dict_lookup "html" fields = None -> ends_with "html") /\
     (forall html,
        dict_lookup "action" fields = Some (JStr "extract") ->
        dict_lookup "html" fields = Some html ->
        dict_lookup "selector" fields = None -> ends_with "selector")) /\
  (forall s s' : Experimental.Agent,
     Experimental.replies_with conversation_history s reply s' ->
     Experimental._parse_llm_response (JStr reply) = Ok (JObj fields) ->
     let ends_with field :=
       Experimental.step conversation_history s
       = (Ok (Return (JStr ("AGENT_ERROR: '" +:+ field +:+ "'"))), s') in
     (dict_lookup "action" fields = Some (JStr "response") ->
      dict_lookup "content" fields = None -> ends_with "content") /\
     (dict_lookup "action" fields = Some (JStr "fetch") \/
      dict_lookup "action" fields = Some (JStr "render") ->
      dict_lookup "url" fields = None -> ends_with "url") /\
     (dict_lookup "action" fields = Some (JStr "extract") ->
      dict_lookup "content_id" fields = None -> ends_with "content_id") /\
     (forall key payload,
        dict_lookup "action" fields = Some (JStr "extract") ->
        dict_lookup "content_id" fields = Some (JStr key) ->
        Experimental.content_store s' !! key = Some payload ->
        payload <> "" ->
        dict_lookup "selector" fields = None -> ends_with "selector")).
Proof.
  split.
  - intros w w' Hreply Hparse ends_with. subst ends_with.
    destruct (main_dispatch_missing fields conversation_history w')
      as (Hc & Hu & Hh & Hs).
    repeat split; intros.
    + now rewrite (main_dispatch_raises_is_agent_error _ _ _ _ _ _ _
                     Hreply Hparse (Hc H H0)).
    + now rewrite (main_dispatch_raises_is_agent_error _ _ _ _ _ _ _
                     Hreply Hparse (Hu H H0)).
    + now rewrite (main_dispatch_raises_is_agent_error _ _ _ _ _ _ _
                     Hreply Hparse (Hh H H0)).
    + now rewrite (main_dispatch_raises_is_agent_error _ _ _ _ _ _ _
                     Hreply Hparse (Hs _ H H0 H1)).
  - intros s s' Hreply Hparse ends_with. subst ends_with.
    destruct (experimental_dispatch_missing fields conversation_history s')
      as (Hc & Hu & Hk & Hs).
    repeat split; intros.
    + now rewrite (experimental_dispatch_raises_is_agent_error _ _ _ _ _ _ _
                     Hreply Hparse (Hc H H0)).
    + now rewrite (experimental_dispatch_raises_is_agent_error _ _ _ _ _ _ _
                     Hreply Hparse (Hu H H0)).
    + now rewrite (experimental_dispatch_raises_is_agent_error _ _ _ _ _ _ _
                     Hreply Hparse (Hk H H0)).
    + now rewrite (experimental_dispatch_raises_is_agent_error _ _ _ _ _ _ _
                     Hreply Hparse (Hs _ _ H H0 H1 H2 H3)).
Qed.

Lemma X4_fetch_without_url_witness :
  let endpoint := [Scripted.says [("action", "fetch")]] in
  Main.step (X := Scripted.externals) [] (Scripted.start endpoint [])
  = (Ok (Return (JStr "AGENT_ERROR: 'url'")), Scripted.start [] []) /\
  Experimental.step (X := Scripted.externals) [] (Scripted.agent endpoint [])
  = (Ok (Return (JStr "AGENT_ERROR: 'url'")), Scripted.agent [] []).
Proof.
  intros endpoint.
  destruct (X4_missing_field_is_an_agent_error
              Scripted.World Scripted.externals
              (fenced_json (json_object_text [("action", "fetch")]))
              [("action", JStr "fetch")] []) as [Hmain Hexp].
  split.
  - apply (Hmain (Scripted.start endpoint []) (Scripted.start [] [])).
    + eexists. split; reflexivity.
    + vm_compute. reflexivity.
    + left. reflexivity.
    + reflexivity.
  - apply (Hexp (Scripted.agent endpoint []) (Scripted.agent [] [])).
    + eexists. repeat split; reflexivity.
    + vm_compute. reflexivity.
    + left. reflexivity.
    + reflexivity.
Defined.

(** ** The endpoint fails or answers out of shape *)

(** X5.  In both files, when the call of the endpoint raises, when its
    answer has no [choices][0][message][content] (no [choices] key, an
    empty list of choices, ...), or when that content is not a string,
    the pass ends the loop with ["AGENT_ERROR: "] and the text of the
    exception; the world is the one the endpoint call left and, in
    experimental.py, the store is untouched. *)
Theorem X5_endpoint_failure_is_an_agent_error
  (World : Type) (X : Externals World) (conversation_history : list Message) :
  (forall (w w1 : World) e,
     session_post conversation_history w = (Raise e, w1) ->
     Main.step conversation_history w
     = (Ok (Return (JStr ("AGENT_ERROR: " +:+ exn_str e))), w1)) /\
  (forall (w w1 : World) response e,
     session_post conversation_history w = (Ok response, w1) ->
     message_content response = Raise e ->
     Main.step conversation_history w
     = (Ok (Return (JStr ("AGENT_ERROR: " +:+ exn_str e))), w1)) /\
  (forall (w w1 : World) response v,
     session_post conversation_history w = (Ok response, w1) ->
     message_content response = Ok v ->
     (forall text, v <> JStr text) ->
     Main.step conversation_history w
     = (Ok (Return (JStr ("AGENT_ERROR: " +:+ attribute_error v "split"))),
        w1)) /\
  (forall (s : Experimental.Agent) w1 e,
     session_post conversation_history (Experimental.world s) = (Raise e, w1) ->
     Experimental.step conversation_history s
     = (Ok (Return (JStr ("AGENT_ERROR: " +:+ exn_str e))),
        Experimental.mkAgent (Experimental.content_store s) w1)) /\
  (forall (s : Experimental.Agent) w1 response e,
     session_post conversation_history (Experimental.world s)
       = (Ok response, w1) ->
     message_content response = Raise e ->
     Experimental.step conversation_history s
     = (Ok (Return (JStr ("AGENT_ERROR: " +:+ exn_str e))),
        Experimental.mkAgent (Experimental.content_store s) w1)) /\
  (forall (s : Experimental.Agent) w1 response v,
     session_post conversation_history (Experimental.world s)
       = (Ok response, w1) ->
     message_content response = Ok v ->
     (forall text, v <> JStr text) ->
     Experimental.step conversation_history s
     = (Ok (Return (JStr ("AGENT_ERROR: " +:+ attribute_error v "split"))),
        Experimental.mkAgent (Experimental.content_store s) w1)) /\
  (forall fields,
     dict_lookup "choices" fields = None ->
     message_content (JObj fields) = Raise (mkExn KeyError "'choices'")) /\
  (forall fields,
     dict_lookup "choices" fields = Some (JArr []) ->
     message_content (JObj fields)
     = Raise (mkExn IndexError "list index out of range")).
Proof.
  repeat split.
  - intros w w1 e Hpost.
    unfold Main.step, try_except_all, bind. now rewrite Hpost.
  - intros w w1 response e Hpost Hc.
    unfold Main.step, try_except_all, bind, lift. now rewrite Hpost, Hc.
  - intros w w1 response v Hpost Hc Hv.
    unfold Main.step, try_except_all, bind, lift. rewrite Hpost, Hc.
    destruct v; try reflexivity. now destruct (Hv s).
  - intros s w1 e Hpost.
    unfold Experimental.step, try_except_all, bind, Experimental.outside.
    now rewrite Hpost.
  - intros s w1 response e Hpost Hc.
    unfold Experimental.step, try_except_all, bind, lift, Experimental.outside.
    now rewrite Hpost, Hc.
  - intros s w1 response v Hpost Hc Hv.
    unfold Experimental.step, try_except_all, bind, lift, Experimental.outside.
    rewrite Hpost, Hc.
    destruct v; try reflexivity. now destruct (Hv s0).
  - intros fields Hnone. unfold message_content, obind, getitem.
    now rewrite Hnone.
  - intros fields Hempty. unfold message_content, obind, getitem.
    now rewrite Hempty.
Qed.

Lemma X5_endpoint_witness :
  Main.step (X := Scripted.externals) [] (Scripted.start [] [])
  = (Ok (Return (JStr "AGENT_ERROR: connection refused")),
     Scripted.start [] []) /\
  Experimental.step (X := Scripted.externals) []
    (Scripted.agent [Ok (JObj [("error", JStr "rate limited")])] [])
  = (Ok (Return (JStr "AGENT_ERROR: 'choices'")), Scripted.agent [] []) /\
  Experimental.step (X := Scripted.externals) []
    (Scripted.agent
       [Ok (JObj [("choices",
                   JArr [JObj [("message", JObj [("content", JNull)])]])])]
       [])
  = (Ok (Return (JStr "AGENT_ERROR: no attribute 'split'")),
     Scripted.agent [] []).
Proof.
  destruct (X5_endpoint_failure_is_an_agent_error
              Scripted.World Scripted.externals [])
    as (Hdown & _ & _ & _ & Hshape & Hnull & _).
  split; [|split].
  - apply (Hdown (Scripted.start [] []) (Scripted.start [] [])
             (mkExn OtherException "connection refused")).
    reflexivity.
  - apply (Hshape
             (Scripted.agent [Ok (JObj [("error", JStr "rate limited")])] [])
             (Scripted.start [] [])
             (JObj [("error", JStr "rate limited")])
             (mkExn KeyError "'choices'")); reflexivity.
  - apply (Hnull
             (Scripted.agent
                [Ok (JObj [("choices",
                   JArr [JObj [("message", JObj [("content", JNull)])]])])]
                [])
             (Scripted.start [] [])
             (JObj [("choices",
                   JArr [JObj [("message", JObj [("content", JNull)])]])])
             JNull); [reflexivity | reflexivity | discriminate].
Defined.

(** ** Replies without a fence *)

Lemma append_nil_r (a : string) : a +:+ EmptyString = a.
Proof.
  induction a as [|x a IH]; [reflexivity|].
  change (String x (a +:+ EmptyString) = String x a). f_equal. exact IH.
Qed.

Lemma split_go_cons (sep : string) (cur : list ascii) (c : ascii)
  (s : string) :
  Str.split_go sep 0 cur (String c s)
  = if Str.startswith sep (String c s)
    then string_of_list_ascii (rev cur)
           :: Str.split_go sep (String.length sep - 1) [] s
    else Str.split_go sep 0 (c :: cur) s.
Proof. reflexivity. Qed.

(** [s.split(sep)] is [[s]] when [sep] does not occur in [s]. *)
Lemma split_go_free (sep s : string) :
  forall cur,
    Str.free_of sep s = true ->
    Str.split_go sep 0 cur s = [string_of_list_ascii (rev cur) +:+ s].
Proof.
  induction s as [|c s IH]; intros cur Hfree.
  - simpl. now rewrite append_nil_r.
  - rewrite free_of_cons in Hfree.
    apply andb_true_iff in Hfree as [Hhere Hrest].
    apply negb_true_iff in Hhere.
    rewrite split_go_cons, Hhere, (IH _ Hrest), rev_cons_string.
    now rewrite append_assoc.
Qed.

Lemma split_free (sep s : string) :
  Str.free_of sep s = true -> Str.split sep s = [s].
Proof. intros Hfree. unfold Str.split. now rewrite split_go_free. Qed.

Lemma startswith_char (a c : ascii) (x : string) :
  Str.startswith (String a EmptyString) (String c x) = Ascii.eqb a c.
Proof. simpl. now destruct (Ascii.eqb a c). Qed.

Lemma find_from_cons (sub : string) (c : ascii) (s : string) (i : Z) :
  Str.find_from sub (String c s) i
  = if Str.startswith sub (String c s) then i
    else Str.find_from sub s (i + 1).
Proof. reflexivity. Qed.

Lemma rfind_from_cons (sub : string) (c : ascii) (s : string) (i last : Z) :
  Str.rfind_from sub (String c s) i last
  = Str.rfind_from sub s (i + 1)
      (if Str.startswith sub (String c s) then i else last).
Proof. reflexivity. Qed.

(** [find] stops at the first occurrence of a character. *)
Lemma find_from_char (a : ascii) (p rest : string) :
  forall i,
    Str.free_of (String a EmptyString) p = true ->
    Str.find_from (String a EmptyString) (p +:+ String a rest) i
    = i + Str.len p.
Proof.
  induction p as [|c p IH]; intros i Hfree.
  - change (EmptyString +:+ String a rest) with (String a rest).
    rewrite find_from_cons, startswith_char, Ascii.eqb_refl.
    unfold Str.len. simpl. lia.
  - rewrite free_of_cons, startswith_char in Hfree.
    apply andb_true_iff in Hfree as [Hhere Hrest].
    apply negb_true_iff in Hhere.
    change (String c p +:+ String a rest)
      with (String c (p +:+ String a rest)).
    rewrite find_from_cons, startswith_char, Hhere, (IH _ Hrest).
    unfold Str.len. simpl String.length. lia.
Qed.

Lemma rfind_from_free (a : ascii) (q : string) :
  forall i last,
    Str.free_of (String a EmptyString) q = true ->
    Str.rfind_from (String a EmptyString) q i last = last.
Proof.
  induction q as [|c q IH]; intros i last Hfree; [reflexivity|].
  rewrite free_of_cons, startswith_char in Hfree.
  apply andb_true_iff in Hfree as [Hhere Hrest].
  apply negb_true_iff in Hhere.
  rewrite rfind_from_cons, startswith_char, Hhere. now apply IH.
Qed.

(** [rfind] gives the last occurrence of a character. *)
Lemma rfind_from_char (a : ascii) (x q : string) :
  forall i last,
    Str.free_of (String a EmptyString) q = true ->
    Str.rfind_from (String a EmptyString) (x +:+ String a q) i last
    = i + Str.len x.
Proof.
  induction x as [|c x IH]; intros i last Hfree.
  - change (EmptyString +:+ String a q) with (String a q).
    rewrite rfind_from_cons, startswith_char, Ascii.eqb_refl.
    rewrite (rfind_from_free _ _ _ _ Hfree). unfold Str.len. simpl. lia.
  - change (String c x +:+ String a q) with (String c (x +:+ String a q)).
    rewrite rfind_from_cons, (IH _ _ Hfree).
    unfold Str.len. simpl String.length. lia.
Qed.

Lemma substring_prefix (b q : string) :
  substring 0 (String.length b) (b +:+ q) = b.
Proof.
  induction b as [|c b IH].
  - destruct q; reflexivity.
  - change (String c (substring 0 (String.length b) (b +:+ q)) = String c b).
    now rewrite IH.
Qed.

Lemma substring_middle (p b q : string) :
  substring (String.length p) (String.length b) (p +:+ b +:+ q) = b.
Proof.
  induction p as [|c p IH]; [exact (substring_prefix b q)|]. exact IH.
Qed.

Lemma slice_middle (p b q : string) :
  Str.slice (p +:+ b +:+ q) (Str.len p) (Str.len p + Str.len b) = b.
Proof.
  unfold Str.slice, Str.clamp, Str.len.
  rewrite !length_append.
  destruct (Z.of_nat (String.length p) <? 0) eqn:E1;
    [apply Z.ltb_lt in E1; lia|].
  destruct (Z.of_nat (String.length p) + Z.of_nat (String.length b) <? 0)
    eqn:E2; [apply Z.ltb_lt in E2; lia|].
  replace (Z.to_nat (Z.min (Z.of_nat (String.length p)) _))
    with (String.length p) by lia.
  replace (Z.to_nat _) with (String.length b) by lia.
  apply substring_middle.
Qed.

Lemma find_open_brace (p rest : string) :
  Str.free_of "{" p = true ->
  Str.find "{" (p +:+ "{" +:+ rest) = Str.len p.
Proof.
  intros Hp. unfold Str.find.
  change ("{" +:+ rest) with (String "{" rest).
  rewrite (find_from_char "{" p rest 0 Hp). lia.
Qed.

Lemma rfind_close_brace (x q : string) :
  Str.free_of "}" q = true ->
  Str.rfind "}" (x +:+ "}" +:+ q) = Str.len x.
Proof.
  intros Hq. unfold Str.rfind.
  change ("}" +:+ q) with (String "}" q).
  rewrite (rfind_from_char "}" x q 0 (-1) Hq). lia.
Qed.

(** From the first opening brace to the last closing one. *)
Lemma braced_span_of_prose (p inner q : string) :
  Str.free_of "{" p = true ->
  Str.free_of "}" q = true ->
  Experimental.braced_span (p +:+ "{" +:+ inner +:+ "}" +:+ q)
  = "{" +:+ inner +:+ "}".
Proof.
  intros Hp Hq. unfold Experimental.braced_span. cbv zeta.
  rewrite (find_open_brace _ _ Hp).
  replace (Str.rfind "}" (p +:+ "{" +:+ inner +:+ "}" +:+ q))
    with (Str.len (p +:+ "{" +:+ inner)).
  - replace (p +:+ "{" +:+ inner +:+ "}" +:+ q)
      with (p +:+ ("{" +:+ inner +:+ "}") +:+ q)
      by (now rewrite !append_assoc).
    replace (Str.len (p +:+ "{" +:+ inner) + 1)
      with (Str.len p + Str.len ("{" +:+ inner +:+ "}")).
    + apply slice_middle.
    + unfold Str.len. rewrite !length_append. simpl String.length. lia.
  - rewrite <- (rfind_close_brace (p +:+ "{" +:+ inner) q Hq).
    now rewrite !append_assoc.
Qed.

Section UnfencedReplies.

Context {World : Type} {X : Externals World}.

Lemma experimental_attempt_unfenced (reply : string) :
  Str.free_of "```" reply = true ->
  Experimental.fenced_attempt reply
  = Raise (mkExn IndexError "list index out of range").
Proof.
  intros Hfree. unfold Experimental.fenced_attempt.
  now rewrite (split_free _ _ Hfree).
Qed.

Lemma main_attempt_unfenced (reply : string) :
  Str.free_of "```json" reply = true ->
  Main.fenced_attempt reply
  = Raise (mkExn IndexError "list index out of range").
Proof.
  intros Hfree. unfold Main.fenced_attempt.
  now rewrite (split_free _ _ Hfree).
Qed.

(** What the one attempt of main.py can raise. *)
Lemma main_attempt_raises (reply : string) (e : Exn) :
  Main.fenced_attempt reply = Raise e ->
  exn_class e = IndexError \/
  exists text, json_loads text = Raise e.
Proof.
  unfold Main.fenced_attempt, obind, list_getitem.
  destruct (nth_error (Str.split "```json" reply) 1) as [tail|];
    [|intros H; inversion H; now left].
  destruct (nth_error (Str.split "```" tail) 0) as [block|];
    [|intros H; inversion H; now left].
  intros H. right. eauto.
Qed.

Lemma experimental_attempt_raises (reply : string) (e : Exn) :
  Experimental.fenced_attempt reply = Raise e ->
  exn_class e = IndexError \/
  exists text, json_loads text = Raise e.
Proof.
  unfold Experimental.fenced_attempt, obind, list_getitem.
  destruct (nth_error (Str.split "```" reply) 1) as [json_str|];
    [|intros H; inversion H; now left].
  intros H. right. eauto.
Qed.

End UnfencedReplies.

(** X6.  A reply without any fence, made of prose, one brace-delimited
    span and prose again (no opening brace before the span, no closing
    brace after it): experimental.py hands exactly the span, braces
    included, to [json.loads] and returns the value it gives; when the
    span does not parse, the result is the [response] action carrying
    ["PARSE_ERROR: list index out of range"], the text of the subscript
    that found no fence. *)
Theorem X6_brace_span_fallback
  (World : Type) (X : Externals World) (p inner q : string) :
  let reply := p +:+ "{" +:+ inner +:+ "}" +:+ q in
  Str.free_of "```" reply = true ->
  Str.free_of "{" p = true ->
  Str.free_of "}" q = true ->
  Experimental.braced_span reply = "{" +:+ inner +:+ "}" /\
  Experimental._parse_llm_response (JStr reply)
  = match json_loads ("{" +:+ inner +:+ "}") with
    | Ok action => Ok action
    | Raise _ => Ok (response_action "PARSE_ERROR: list index out of range")
    end.
Proof.
  intros reply Hfence Hp Hq.
  assert (Hspan : Experimental.braced_span reply = "{" +:+ inner +:+ "}")
    by now apply braced_span_of_prose.
  split; [exact Hspan|].
  unfold Experimental._parse_llm_response.
  rewrite (experimental_attempt_unfenced _ Hfence). simpl caught_by.
  cbv iota. now rewrite Hspan.
Qed.

Lemma X6_prose_around_action_witness :
  let inner :=
    Str.dq +:+ "action" +:+ Str.dq +:+ ": " +:+ Str.dq +:+ "response"
    +:+ Str.dq +:+ ", " +:+ Str.dq +:+ "content" +:+ Str.dq +:+ ": "
    +:+ Str.dq +:+ "Paris" +:+ Str.dq in
  Experimental._parse_llm_response (X := Scripted.externals)
    (JStr ("Here is the answer: " +:+ "{" +:+ inner +:+ "}"
           +:+ " I hope it helps."))
  = Ok (response_action "Paris").
Proof.
  intros inner.
  destruct (X6_brace_span_fallback Scripted.World Scripted.externals
              "Here is the answer: " inner " I hope it helps."
              eq_refl eq_refl eq_refl) as [_ Hparse].
  exact (eq_trans Hparse eq_refl).
Defined.

(** X7.  main.py has no parse error: a reply in which [```json] does
    not occur, whatever else it holds (an action in a plain fence, bare
    JSON, prose), is decoded to a [response] action whose content is
    the reply itself, and the pass returns the reply as the answer. *)
Theorem X7_main_returns_unfenced_reply_verbatim
  (World : Type) (X : Externals World) (reply : string)
  (conversation_history : list Message) (w w' : World) :
  Str.free_of "```json" reply = true ->
  Main._parse_llm_response (JStr reply) = Ok (response_action reply) /\
  (Main.replies_with conversation_history w reply w' ->
   Main.step conversation_history w = (Ok (Return (JStr reply)), w')).
Proof.
  intros Hfree.
  assert (Hparse :
    Main._parse_llm_response (JStr reply) = Ok (response_action reply)).
  { unfold Main._parse_llm_response.
    now rewrite (main_attempt_unfenced _ Hfree). }
  split; [exact Hparse|].
  intros Hreply.
  rewrite (main_step_decoded _ _ _ _ _ Hreply Hparse). reflexivity.
Qed.

Lemma X7_bare_json_witness :
  let reply :=
    json_object_text [("action", "fetch"); ("url", "http://example.test")] in
  Main.step (X := Scripted.externals) []
    (Scripted.start [Scripted.chat reply] [])
  = (Ok (Return (JStr reply)), Scripted.start [] []).
Proof.
  intros reply.
  apply (X7_main_returns_unfenced_reply_verbatim
           Scripted.World Scripted.externals reply []
           (Scripted.start [Scripted.chat reply] []) (Scripted.start [] [])
           eq_refl).
  eexists. split; reflexivity.
Defined.


Lemma json_ref_raises_decode_errors (text : string) (e : Exn) :
  JsonRef.loads text = Raise e -> exn_class e = JSONDecodeError.
Proof.
  unfold JsonRef.loads.
  destruct (JsonRef.read_value _ text) as [[v rest]|];
    [destruct (JsonRef.skip_ws rest)|]; intros H; inversion H; reflexivity.
Qed.


(** ** What [execute_agent_loop] makes of the strings the loop builds *)

Section LoopStrings.

Context {World : Type} {X : Externals World}.

Lemma experimental_first_pass_returns user_query
  (s s' : Experimental.Agent) (v : PyVal) :
  Experimental.step
    [system_message GROQ_SYSTEM_PROMPT; user_message user_query] s
  = (Ok (Return v), s') ->
  Experimental._run_scraping_operations user_query s = (Ok v, s').
Proof.
  intros Hstep. unfold Experimental._run_scraping_operations, max_steps.
  simpl. unfold bind at 1. now rewrite Hstep.
Qed.

Lemma main_first_pass_returns user_query (w w' : World) (v : PyVal) :
  Main.step [system_message GROQ_SYSTEM_PROMPT; user_message user_query] w
  = (Ok (Return v), w') ->
  Main.execute_agent_loop user_query w = (Ok v, w').
Proof.
  intros Hstep. unfold Main.execute_agent_loop, max_steps.
  simpl. unfold bind at 1. now rewrite Hstep.
Qed.

Lemma agent_error_is_error (text : string) :
  Str.startswith_any Experimental.error_prefixes ("AGENT_ERROR: " +:+ text)
  = true.
Proof. reflexivity. Qed.

End LoopStrings.

(** X9.  Of the strings the loop of experimental.py builds itself,
    [execute_agent_loop] reports the step-limit message and every
    ["AGENT_ERROR: ..."] as [{"error": ...}], without a formatting call.
    ["ERROR: Invalid action requested"] begins with none of the
    prefixes [_is_error] knows: it is sent to the formatting pass and
    comes back as [raw_data], like an answer. *)
Theorem X9_invalid_action_error_is_formatted_as_an_answer
  (World : Type) (X : Externals World) (user_query : string)
  (s : Experimental.Agent) :
  let seed := [system_message GROQ_SYSTEM_PROMPT; user_message user_query] in
  (Experimental.falls_through max_steps seed s ->
   fst (Experimental.execute_agent_loop user_query s)
   = Ok (JObj [("error",
                JStr "MAX_STEPS_REACHED: Processing limit exceeded")])) /\
  (forall s' text,
     Experimental.step seed s
       = (Ok (Return (JStr ("AGENT_ERROR: " +:+ text))), s') ->
     Experimental.execute_agent_loop user_query s
     = (Ok (JObj [("error", JStr ("AGENT_ERROR: " +:+ text))]), s')) /\
  (forall s' s2 formatted,
     Experimental.step seed s
       = (Ok (Return (JStr "ERROR: Invalid action requested")), s') ->
     Experimental._format_output
       (JStr "ERROR: Invalid action requested") user_query s'
       = (Ok formatted, s2) ->
     Experimental.execute_agent_loop user_query s
     = (Ok (JObj [("raw_data", JStr "ERROR: Invalid action requested");
                  ("formatted", formatted)]), s2)).
Proof.
  intros seed. split; [|split].
  - intros Hft.
    destruct (experimental_falls_through_exhausts _ _ _ Hft) as [Hres _].
    destruct (Experimental.loop max_steps seed s) as [o s'] eqn:Hrun.
    simpl in Hres. subst o.
    change (Experimental._run_scraping_operations user_query s
            = (Ok (JStr MAX_STEPS_REACHED), s')) in Hrun.
    now rewrite (execute_on_error _ _ _ _ Hrun eq_refl).
  - intros s' text Hstep.
    apply execute_on_error; [|apply agent_error_is_error].
    now apply experimental_first_pass_returns.
  - intros s' s2 formatted Hstep Hformat.
    rewrite (execute_on_answer _ _ _ _
               (experimental_first_pass_returns _ _ _ _ Hstep) eq_refl).
    now rewrite Hformat.
Qed.

Lemma X9_unknown_action_witness :
  Experimental.execute_agent_loop (X := Scripted.externals) "news?"
    (Scripted.agent
       [Scripted.says [("action", "search"); ("query", "news")];
        Scripted.chat "# Report"] [])
  = (Ok (JObj [("raw_data", JStr "ERROR: Invalid action requested");
               ("formatted", JStr "# Report")]),
     Scripted.agent [] []) /\
  Experimental.execute_agent_loop (X := Scripted.externals) "news?"
    (Scripted.agent [] [])
  = (Ok (JObj [("error", JStr "AGENT_ERROR: connection refused")]),
     Scripted.agent [] []) /\
  fst (Experimental.execute_agent_loop (X := Scripted.externals) "news?"
         (Scripted.agent Scripted.stubborn []))
  = Ok (JObj [("error",
               JStr "MAX_STEPS_REACHED: Processing limit exceeded")]).
Proof.
  split; [|split].
  - apply (proj2 (proj2 (X9_invalid_action_error_is_formatted_as_an_answer
             Scripted.World Scripted.externals "news?" _))
             (Scripted.agent [Scripted.chat "# Report"] []));
      vm_compute; reflexivity.
  - apply (proj1 (proj2 (X9_invalid_action_error_is_formatted_as_an_answer
             Scripted.World Scripted.externals "news?" _))
             (Scripted.agent [] []) "connection refused").
    vm_compute. reflexivity.
  - apply (proj1 (X9_invalid_action_error_is_formatted_as_an_answer
             Scripted.World Scripted.externals "news?" _)).
    vm_compute. exact I.
Defined.

(** X10.  A [response] whose content is not a string (a number, a
    list, [null]): experimental.py's [execute_agent_loop] raises the
    [AttributeError] of [startswith] and returns nothing; main.py
    returns the value as it is. *)
Theorem X10_response_content_that_is_no_string
  (World : Type) (X : Externals World) (user_query reply : string)
  (fields : list (string * PyVal)) (v : PyVal) :
  let seed := [system_message GROQ_SYSTEM_PROMPT; user_message user_query] in
  dict_lookup "action" fields = Some (JStr "response") ->
  dict_lookup "content" fields = Some v ->
  (forall text, v <> JStr text) ->
  (forall w w',
     Main.replies_with seed w reply w' ->
     Main._parse_llm_response (JStr reply) = Ok (JObj fields) ->
     Main.execute_agent_loop user_query w = (Ok v, w')) /\
  (forall s s',
     Experimental.replies_with seed s reply s' ->
     Experimental._parse_llm_response (JStr reply) = Ok (JObj fields) ->
     Experimental.execute_agent_loop user_query s
     = (Raise (mkExn AttributeError (attribute_error v "startswith")), s')).
Proof.
  intros seed Ha Hc Hv. subst seed. split.
  - intros w w' Hreply Hparse.
    apply main_first_pass_returns.
    rewrite (main_step_decoded _ _ _ _ _ Hreply Hparse).
    now rewrite (main_dispatch_response _ _ _ _ Ha Hc).
  - intros s s' Hreply Hparse.
    pose proof (experimental_first_response _ _ _ _ _ _
                  Hreply Hparse Ha Hc) as Hrun.
    unfold Experimental.execute_agent_loop, bind, lift. rewrite Hrun.
    destruct v; try reflexivity. now destruct (Hv s0).
Qed.

Lemma X10_numeric_content_witness :
  let reply :=
    fenced_json
      ("{" +:+ Str.dq +:+ "action" +:+ Str.dq +:+ ": " +:+ Str.dq
       +:+ "response" +:+ Str.dq +:+ ", " +:+ Str.dq +:+ "content"
       +:+ Str.dq +:+ ": 42}") in
  Main.execute_agent_loop (X := Scripted.externals) "answer?"
    (Scripted.start [Scripted.chat reply] [])
  = (Ok (JNum 42), Scripted.start [] []) /\
  Experimental.execute_agent_loop (X := Scripted.externals) "answer?"
    (Scripted.agent [Scripted.chat reply] [])
  = (Raise (mkExn AttributeError "no attribute 'startswith'"),
     Scripted.agent [] []).
Proof.
  intros reply.
  destruct (X10_response_content_that_is_no_string
              Scripted.World Scripted.externals "answer?" reply
              [("action", JStr "response"); ("content", JNum 42)] (JNum 42)
              eq_refl eq_refl ltac:(discriminate)) as [Hmain Hexp].
  split.
  - apply Hmain; [eexists; split; reflexivity | vm_compute; reflexivity].
  - apply Hexp; [eexists; repeat split; reflexivity | vm_compute; reflexivity].
Defined.

(** ** The cleaner and the adapters *)

Lemma substring_0_length (s : string) (m : nat) :
  String.length (substring 0 m s) = Nat.min m (String.length s).
Proof.
  revert m. induction s as [|c s IH]; intros m.
  - destruct m; reflexivity.
  - destruct m as [|m]; [reflexivity|]. simpl. now rewrite IH.
Qed.

Lemma slice_to_length (s : string) (n : Z) :
  0 <= n -> Str.len (Str.slice_to s n) = Z.min n (Str.len s).
Proof.
  intros Hn. unfold Str.slice_to, Str.slice. rewrite clamp_zero.
  unfold Str.len at 1. change (Z.to_nat 0) with O.
  rewrite substring_0_length. unfold Str.clamp, Str.len.
  destruct (n <? 0) eqn:E; [apply Z.ltb_lt in E; lia|]. lia.
Qed.

Lemma slice_to_short (s : string) (n : Z) :
  Str.len s <= n -> Str.slice_to s n = s.
Proof.
  intros Hn. unfold Str.slice_to, Str.slice. rewrite clamp_zero.
  unfold Str.clamp. unfold Str.len in *.
  destruct (n <? 0) eqn:E; [apply Z.ltb_lt in E; lia|].
  replace (Z.to_nat (Z.min n (Z.of_nat (String.length s)) - 0))
    with (String.length s) by lia.
  apply substring_whole.
Qed.




(** ** Fetch, render and extract in sequence *)

Section Sequences.

Context {World : Type} {X : Externals World}.

Lemma main_dispatch_render fields url result conversation_history
  (w w' : World) :
  dict_lookup "action" fields = Some (JStr "render") ->
  dict_lookup "url" fields = Some url ->
  fetch_dynamic_content url (default JNull (dict_lookup "wait_for" fields)) w
    = (Ok result, w') ->
  Main.dispatch (JObj fields) conversation_history w
  = (Ok (Continue (conversation_history ++
       [assistant_message
          ("Rendered content from " +:+ py_str url +:+ ":" +:+ Str.nl
           +:+ result)])), w').
Proof.
  intros Ha Hu Hf. unfold Main.dispatch, bind, lift, getitem, dict_get.
  rewrite Ha. simpl. rewrite Hu, Hf. reflexivity.
Qed.

Lemma experimental_dispatch_render fields url result key
  conversation_history (s : Experimental.Agent) (w' w'' : World) :
  dict_lookup "action" fields = Some (JStr "render") ->
  dict_lookup "url" fields = Some url ->
  fetch_dynamic_content url (default JNull (dict_lookup "wait_for" fields))
    (Experimental.world s) = (Ok result, w') ->
  uuid4 w' = (key, w'') ->
  Experimental.dispatch (JObj fields) conversation_history s
  = (Ok (Continue (conversation_history ++
       [assistant_message ("RENDERED:" +:+ key +:+ "|" +:+ py_str url)])),
     Experimental.mkAgent
       (<[key := result]> (Experimental.content_store s)) w'').
Proof.
  intros Ha Hu Hf Hk.
  unfold Experimental.dispatch, bind, lift, getitem, dict_get.
  rewrite Ha. simpl. rewrite Hu.
  unfold Experimental.outside. rewrite Hf.
  unfold Experimental._store_content, bind, Experimental.outside, total.
  simpl. rewrite Hk. reflexivity.
Qed.

Lemma fetch_dynamic_content_outcome (url wait_for : PyVal) (w w' : World)
  (o : Outcome string) :
  playwright_content url wait_for w = (o, w') ->
  fetch_dynamic_content url wait_for w
  = (Ok match o with
        | Ok content => _clean_html content
        | Raise e => "RENDER_ERROR: " +:+ exn_str e
        end, w').
Proof.
  intros Hp. unfold fetch_dynamic_content, try_except_all, bind, ret.
  rewrite Hp. now destruct o.
Qed.

Lemma fetch_website_outcome (url : PyVal) (w w' : World) (o : Outcome string) :
  requests_get url w = (o, w') ->
  fetch_website url w
  = (Ok match o with
        | Ok text => _clean_html text
        | Raise e => "FETCH_ERROR: " +:+ exn_str e
        end, w').
Proof.
  intros Hp. unfold fetch_website, try_except_all, bind, ret.
  rewrite Hp. now destruct o.
Qed.

Lemma main_dispatch_extract fields html selector conversation_history
  (w : World) :
  dict_lookup "action" fields = Some (JStr "extract") ->
  dict_lookup "html" fields = Some html ->
  dict_lookup "selector" fields = Some selector ->
  Main.dispatch (JObj fields) conversation_history w
  = (Ok (Continue (conversation_history ++
       [assistant_message
          ("Extraction results using '" +:+ py_str selector +:+ "':"
           +:+ Str.nl +:+ json_dumps (extract_data html selector))])), w).
Proof.
  intros Ha Hh Hs. unfold Main.dispatch, bind, lift, getitem.
  rewrite Ha. simpl. rewrite Hh, Hs. reflexivity.
Qed.

End Sequences.





(** X15.  An extract action of experimental.py whose [content_id] is
    not a string.  A list or an object cannot be a dictionary key: the
    lookup raises and the pass ends the loop with ["AGENT_ERROR: ..."].
    A number, a boolean or [null] is looked up, found under no key, and
    the pass goes on with [["CONTENT_NOT_FOUND"]] like for an unknown
    reference. *)
Theorem X15_content_id_that_is_no_string
  (World : Type) (X : Externals World)
  (fields : list (string * PyVal)) (key : PyVal)
  (conversation_history : list Message) (s : Experimental.Agent) :
  dict_lookup "action" fields = Some (JStr "extract") ->
  dict_lookup "content_id" fields = Some key ->
  ((exists items, key = JArr items) \/ (exists members, key = JObj members) ->
   Experimental.dispatch (JObj fields) conversation_history s
   = (Raise (mkExn TypeError (unhashable_error key)), s)) /\
  (key = JNull \/ (exists b, key = JBool b) \/ (exists n, key = JNum n) \/
   (exists literal, key = JReal literal) ->
   Experimental.dispatch (JObj fields) conversation_history s
   = (Ok (Continue (conversation_history ++
        [assistant_message
           ("EXTRACTED:" +:+ json_dumps ["CONTENT_NOT_FOUND"])])), s)).
Proof.
  intros Ha Hk. split.
  - intros [(items & ->)|(members & ->)];
      unfold Experimental.dispatch, bind, lift, getitem;
      rewrite Ha; simpl; rewrite Hk; reflexivity.
  - intros [->|[(b & ->)|[(n & ->)|(literal & ->)]]];
      unfold Experimental.dispatch, bind, lift, getitem;
      rewrite Ha; simpl; rewrite Hk; reflexivity.
Qed.

Lemma X15_list_and_number_witness :
  let with_id v :=
    JObj [("action", JStr "extract"); ("content_id", v);
          ("selector", JStr "h1")] in
  Experimental.dispatch (X := Scripted.externals)
    (with_id (JArr [JStr "key-0"])) [] (Scripted.agent [] [])
  = (Raise (mkExn TypeError "unhashable type"), Scripted.agent [] []) /\
  Experimental.dispatch (X := Scripted.externals)
    (with_id (JNum 7)) [] (Scripted.agent [] [])
  = (Ok (Continue
       [assistant_message
          ("EXTRACTED:[" +:+ Str.dq +:+ "CONTENT_NOT_FOUND" +:+ Str.dq +:+ "]")]),
     Scripted.agent [] []).
Proof.
  intros with_id. split.
  - apply (proj1 (X15_content_id_that_is_no_string
             Scripted.World Scripted.externals
             [("action", JStr "extract"); ("content_id", JArr [JStr "key-0"]);
              ("selector", JStr "h1")]
             (JArr [JStr "key-0"]) [] (Scripted.agent [] [])
             eq_refl eq_refl)).
    left. eexists. reflexivity.
  - apply (proj2 (X15_content_id_that_is_no_string
             Scripted.World Scripted.externals
             [("action", JStr "extract"); ("content_id", JNum 7);
              ("selector", JStr "h1")]
             (JNum 7) [] (Scripted.agent [] [])
             eq_refl eq_refl)).
    right. right. left. eexists. reflexivity.
Defined.

(** X16.  The [__main__] block of experimental.py reads [raw_data] and
    [formatted] from the result.  After a run that ended with an error
    string it prints ["No data"] and ["No formatted output"]: the
    [error] entry, the only one the result has, is not printed.  After
    a run that ended with an answer and a formatting pass that
    returned, it prints the answer and the formatted text. *)
Theorem X16_script_prints_no_error_text
  (World : Type) (X : Externals World) (user_query raw : string)
  (s s1 : Experimental.Agent) :
  Experimental._run_scraping_operations user_query s = (Ok (JStr raw), s1) ->
  (Str.startswith_any Experimental.error_prefixes raw = true ->
   exists result,
     Experimental.execute_agent_loop user_query s = (Ok result, s1) /\
     Experimental.script_prints result
     = Ok (JStr "No data", JStr "No formatted output")) /\
  (forall formatted s2,
     Str.startswith_any Experimental.error_prefixes raw = false ->
     Experimental._format_output (JStr raw) user_query s1
       = (Ok formatted, s2) ->
     exists result,
       Experimental.execute_agent_loop user_query s = (Ok result, s2) /\
       Experimental.script_prints result = Ok (JStr raw, formatted)).
Proof.
  intros Hrun. split.
  - intros Herr. eexists. split;
      [apply (execute_on_error _ _ _ _ Hrun Herr)|reflexivity].
  - intros formatted s2 Hok Hformat. eexists. split.
    + rewrite (execute_on_answer _ _ _ _ Hrun Hok). now rewrite Hformat.
    + reflexivity.
Qed.

Lemma X16_script_witness :
  exists result,
    Experimental.execute_agent_loop (X := Scripted.externals) "news?"
      (Scripted.agent [] []) = (Ok result, Scripted.agent [] []) /\
    Experimental.script_prints (X := Scripted.externals) result
    = Ok (JStr "No data", JStr "No formatted output").
Proof.
  apply (proj1 (X16_script_prints_no_error_text
                  Scripted.World Scripted.externals "news?"
                  "AGENT_ERROR: connection refused"
                  (Scripted.agent [] []) (Scripted.agent [] [])
                  ltac:(vm_compute; reflexivity))).
  reflexivity.
Defined.

(** X17.  When the selector engine raises [e], the extraction is not
    fatal in either file: [extract_data] gives the one-element list
    [["EXTRACTION_ERROR: " + str(e)]], the pass appends it, serialized,
    in its message and goes on, changing neither world nor store. *)
Theorem X17_extraction_failure_continues_the_loop
  (World : Type) (X : Externals World) (selector : PyVal) (e : Exn)
  (conversation_history : list Message) :
  (forall fields html (w : World),
     dict_lookup "action" fields = Some (JStr "extract") ->
     dict_lookup "html" fields = Some html ->
     dict_lookup "selector" fields = Some selector ->
     select_text html selector = Raise e ->
     Main.dispatch (JObj fields) conversation_history w
     = (Ok (Continue (conversation_history ++
          [assistant_message
             ("Extraction results using '" +:+ py_str selector +:+ "':"
              +:+ Str.nl
              +:+ json_dumps ["EXTRACTION_ERROR: " +:+ exn_str e])])), w)) /\
  (forall fields key payload (s : Experimental.Agent),
     dict_lookup "action" fields = Some (JStr "extract") ->
     dict_lookup "content_id" fields = Some (JStr key) ->
     dict_lookup "selector" fields = Some selector ->
     Experimental.content_store s !! key = Some payload ->
     payload <> "" ->
     select_text (JStr payload) selector = Raise e ->
     Experimental.dispatch (JObj fields) conversation_history s
     = (Ok (Continue (conversation_history ++
          [assistant_message
             ("EXTRACTED:" +:+
              json_dumps ["EXTRACTION_ERROR: " +:+ exn_str e])])), s)).
Proof.
  split.
  - intros fields html w Ha Hh Hs Hsel.
    rewrite (main_dispatch_extract _ _ _ _ _ Ha Hh Hs).
    unfold extract_data. now rewrite Hsel.
  - intros fields key payload s Ha Hk Hs Hstore Hne Hsel.
    rewrite (experimental_dispatch_extract_found _ _ _ _ _ _
               Ha Hk Hs Hstore Hne).
    unfold extract_data. now rewrite Hsel.
Qed.

Lemma X17_bad_selector_witness :
  let s :=
    Experimental.mkAgent (<["key-0" := "Example Domain"]> ∅)
      (Scripted.start [] []) in
  Main.dispatch (X := Scripted.strict)
    (JObj [("action", JStr "extract"); ("html", JStr "<h1>Example</h1>");
           ("selector", JNull)]) [] (Scripted.start [] [])
  = (Ok (Continue
       [assistant_message
          ("Extraction results using '<value>':" +:+ Str.nl +:+ "["
           +:+ Str.dq +:+ "EXTRACTION_ERROR: invalid selector" +:+ Str.dq
           +:+ "]")]),
     Scripted.start [] []) /\
  Experimental.dispatch (X := Scripted.strict)
    (JObj [("action", JStr "extract"); ("content_id", JStr "key-0");
           ("selector", JNull)]) [] s
  = (Ok (Continue
       [assistant_message
          ("EXTRACTED:[" +:+ Str.dq +:+ "EXTRACTION_ERROR: invalid selector"
           +:+ Str.dq +:+ "]")]),
     s).
Proof.
  intros s.
  destruct (X17_extraction_failure_continues_the_loop
              Scripted.World Scripted.strict JNull
              (mkExn OtherException "invalid selector") [])
    as [Hmain Hexp].
  split.
  - apply (Hmain _ (JStr "<h1>Example</h1>")); reflexivity.
  - apply (Hexp _ "key-0" "Example Domain"); try reflexivity. discriminate.
Defined.
